(** * Semantic retrieval over basketball clip records

    A shallow embedding of [semantic_search.py] (text projection of a clip
    record, the embedding cache, cosine similarity, ranking, the query
    orchestrator and the rebuild operation) together with the guard of the
    HTTP endpoint [api_semantic_search] of [media_server.py], and the
    properties of these functions.

    Conventions of the model.
    - Python [dict]s are insertion-ordered association lists whose keys are
      pairwise distinct; iteration ([.items()]) follows the list.
    - Python [float]s and NumPy [float64] scalars are IEEE-754 binary64
      numbers: Rocq's primitive [float].
    - Python strings are [string]s; a character is a code point below 256.
    - A function that can raise returns a [result]; code that also reads or
      changes the outside world (environment, cache file, metadata store,
      embedding provider) runs in the monad [Py], which keeps the state
      reached when an exception is raised. *)

From Stdlib Require Import List String Ascii ZArith Lia Bool DecimalString.
From Stdlib Require Import Floats Sorting.Sorted Sorting.Permutation.
Import ListNotations.
Local Open Scope string_scope.
Local Open Scope list_scope.

(** ** Python values held by a clip record

    [analytics_db.py] declares every column of [clips] as [TEXT] or
    [INTEGER]; a row read through [_dict_factory] maps each column name to
    [None], an [int] or a [str]. *)

Inductive pyval : Type :=
| VNone
| VInt (z : Z)
| VStr (s : string).

(** Truth value of an object, as tested by [if x:] and by [or]. *)
Definition truthy (v : pyval) : bool :=
  match v with
  | VNone => false
  | VInt z => negb (z =? 0)%Z
  | VStr s => negb (s =? "")
  end.

(** [str(v)], which is also how an f-string renders [{v}]. *)
Definition py_str (v : pyval) : string :=
  match v with
  | VNone => "None"
  | VInt z => NilZero.string_of_int (Z.to_int z)
  | VStr s => s
  end.

(** [a or b]. *)
Definition py_or (a b : pyval) : pyval := if truthy a then a else b.

Definition pyval_eqb (a b : pyval) : bool :=
  match a, b with
  | VNone, VNone => true
  | VInt x, VInt y => (x =? y)%Z
  | VStr x, VStr y => x =? y
  | _, _ => false
  end.

(** ** Dictionaries *)

(** Equality of keys ([==] on hashable objects). *)
Class PyEq (K : Type) := py_eqb : K -> K -> bool.

#[export] Instance PyEq_string : PyEq string := String.eqb.
#[export] Instance PyEq_pyval : PyEq pyval := pyval_eqb.

Module Dict.
Section Ops.
Context {K V : Type} `{PyEq K}.

Definition t := list (K * V).

(** [d.get(k)] without the default: [None] here is Rocq's [None]. *)
Fixpoint lookup (k : K) (d : t) : option V :=
  match d with
  | [] => None
  | (k', v) :: d' => if py_eqb k k' then Some v else lookup k d'
  end.

(** [k in d]. *)
Definition contains (k : K) (d : t) : bool :=
  match lookup k d with Some _ => true | None => false end.

(** [d[k] = v]: an existing key keeps its place, a new key goes last. *)
Fixpoint set (k : K) (v : V) (d : t) : t :=
  match d with
  | [] => [(k, v)]
  | (k', v') :: d' =>
      if py_eqb k k' then (k', v) :: d' else (k', v') :: set k v d'
  end.

(** [del d[k]] for a key that may be missing. *)
Fixpoint remove (k : K) (d : t) : t :=
  match d with
  | [] => []
  | (k', v') :: d' =>
      if py_eqb k k' then remove k d' else (k', v') :: remove k d'
  end.

Definition keys (d : t) : list K := map fst d.
Definition items (d : t) : list (K * V) := d.

(** [{k: v for (k, v) in pairs}] and [dict(pairs)]. *)
Definition of_pairs (pairs : list (K * V)) : t :=
  fold_left (fun d kv => set (fst kv) (snd kv) d) pairs [].
End Ops.
Arguments t : clear implicits.
End Dict.

(** A clip record: the dict of one row of [clips]. *)
Definition Clip := Dict.t string pyval.

(** [clip.get(k)]: the value, or Python's [None] when the key is missing. *)
Definition clip_get (clip : Clip) (k : string) : pyval :=
  match Dict.lookup k clip with
  | Some v => v
  | None => VNone
  end.

(** ** Text projector: [get_clip_text_representation] *)

(** One statement [if cond: parts.append(seg)]. *)
Definition append_if (cond : pyval) (seg : string) (parts : list string)
  : list string :=
  if truthy cond then parts ++ [seg] else parts.

(** [" | ".join(parts)]. *)
Definition py_join (sep : string) (parts : list string) : string :=
  String.concat sep parts.

Definition get_clip_text_representation (clip : Clip) : string :=
  let parts := [] in
  (* Game context *)
  let parts := append_if (clip_get clip "game_id")
                 ("Game " ++ py_str (clip_get clip "game_id")) parts in
  let parts := append_if (clip_get clip "opponent")
                 ("vs " ++ py_str (clip_get clip "opponent")) parts in
  let parts := append_if (clip_get clip "quarter")
                 ("Q" ++ py_str (clip_get clip "quarter")) parts in
  let parts := append_if (clip_get clip "possession")
                 ("Possession " ++ py_str (clip_get clip "possession")) parts in
  (* Situation and formation *)
  let parts := append_if (clip_get clip "situation")
                 ("Situation: " ++ py_str (clip_get clip "situation")) parts in
  let parts := append_if (clip_get clip "formation")
                 ("Formation: " ++ py_str (clip_get clip "formation")) parts in
  let parts := append_if (clip_get clip "play_name")
                 ("Play: " ++ py_str (clip_get clip "play_name")) parts in
  (* Actions *)
  let trigger_value :=
    py_or (clip_get clip "play_trigger") (clip_get clip "action_trigger") in
  let parts := append_if trigger_value
                 ("Trigger: " ++ py_str trigger_value) parts in
  let parts := append_if (clip_get clip "action_types")
                 ("Actions: " ++ py_str (clip_get clip "action_types")) parts in
  let parts := append_if (clip_get clip "action_sequence")
                 ("Sequence: " ++ py_str (clip_get clip "action_sequence")) parts in
  (* Defense *)
  let parts := append_if (clip_get clip "scout_coverage")
                 ("Scout Coverage: " ++ py_str (clip_get clip "scout_coverage")) parts in
  let parts := append_if (clip_get clip "coverage")
                 ("Coverage: " ++ py_str (clip_get clip "coverage")) parts in
  let parts := append_if (clip_get clip "ball_screen")
                 ("Ball Screen: " ++ py_str (clip_get clip "ball_screen")) parts in
  let parts := append_if (clip_get clip "off_ball_screen")
                 ("Off Ball Screen: " ++ py_str (clip_get clip "off_ball_screen")) parts in
  let parts := append_if (clip_get clip "help_rotation")
                 ("Help: " ++ py_str (clip_get clip "help_rotation")) parts in
  let parts := append_if (clip_get clip "disruption")
                 ("Disruption: " ++ py_str (clip_get clip "disruption")) parts in
  let parts := append_if (clip_get clip "breakdown")
                 ("Breakdown: " ++ py_str (clip_get clip "breakdown")) parts in
  (* Result and outcome *)
  let parts := append_if (clip_get clip "result")
                 ("Result: " ++ py_str (clip_get clip "result")) parts in
  let parts := append_if (clip_get clip "shooter")
                 ("Shooter: " ++ py_str (clip_get clip "shooter")) parts in
  let parts := append_if (clip_get clip "shot_location")
                 ("Shot Location: " ++ py_str (clip_get clip "shot_location")) parts in
  let parts := append_if (clip_get clip "shot_result")
                 ("Shot Result: " ++ py_str (clip_get clip "shot_result")) parts in
  let parts := append_if (clip_get clip "points")
                 (py_str (clip_get clip "points") ++ " points") parts in
  let parts := append_if (clip_get clip "rebound")
                 ("Rebound: " ++ py_str (clip_get clip "rebound")) parts in
  let parts := append_if (clip_get clip "contest")
                 ("Contest: " ++ py_str (clip_get clip "contest")) parts in
  let parts := append_if (clip_get clip "paint_touch")
                 ("Paint Touch: " ++ py_str (clip_get clip "paint_touch")) parts in
  (* Notes *)
  let parts := append_if (clip_get clip "notes")
                 ("Notes: " ++ py_str (clip_get clip "notes")) parts in
  py_join " | " parts.

(** ** Exceptions and results *)

Inductive exn_kind : Type :=
| ImportError
| ValueError
| JSONDecodeError      (* a subclass of ValueError *)
| KeyError
| IndexError
| AttributeError
| TypeError
| PermissionError
| OtherError.          (* raised by a collaborator: sqlite3, the provider *)

(** An exception object: its class and [str(e)]. *)
Record exn : Type := Exn { exn_class : exn_kind; exn_str : string }.

(** [isinstance(e, ValueError)]. *)
Definition is_ValueError (e : exn) : bool :=
  match exn_class e with
  | ValueError | JSONDecodeError => true
  | _ => false
  end.

Inductive result (A : Type) : Type :=
| Ok (a : A)
| Raise (e : exn).
Arguments Ok {A} a.
Arguments Raise {A} e.

Definition result_bind {A B} (r : result A) (k : A -> result B) : result B :=
  match r with
  | Ok a => k a
  | Raise e => Raise e
  end.

(** ** Vectors and cosine similarity *)

Definition vector := list float.

(** [str(n)] for a length or a count. *)
Definition str_of_nat (n : nat) : string :=
  NilZero.string_of_uint (Nat.to_uint n).

(** The text of the [ValueError] that [np.dot] raises for two
    one-dimensional arrays of [n] and [m] elements: it names the shapes in
    the order of the arguments. *)
Definition shapes_not_aligned (n m : nat) : string :=
  "shapes (" ++ str_of_nat n ++ ",) and (" ++ str_of_nat m
  ++ ",) not aligned: " ++ str_of_nat n ++ " (dim 0) != " ++ str_of_nat m
  ++ " (dim 0)".

(** [np.dot(a, b)] on one-dimensional arrays: the sum of the products, or
    [ValueError] when the shapes differ.  The products are added from left
    to right; NumPy may add them in another order, which can change the
    last bits of a rounded sum but not whether the sum is a zero or a NaN,
    and not a sum whose partial sums are all exact. *)
Definition np_dot (a b : vector) : result float :=
  if (List.length a =? List.length b)%nat
  then Ok (fold_left (fun acc xy => (acc + fst xy * snd xy)%float)
             (combine a b) 0%float)
  else Raise (Exn ValueError
                (shapes_not_aligned (List.length a) (List.length b))).

(** [np.linalg.norm(a)] on a one-dimensional real array:
    [sqrt(dot(a, a))]. *)
Definition np_linalg_norm (a : vector) : float :=
  sqrt (fold_left (fun acc x => (acc + x * x)%float) a 0%float).

(** [cosine_similarity]: the division is NumPy's, which on a zero divisor
    warns and returns an infinity or NaN instead of raising. *)
Definition cosine_similarity (vec1 vec2 : vector) : result float :=
  result_bind (np_dot vec1 vec2) (fun d =>
  Ok (d / (np_linalg_norm vec1 * np_linalg_norm vec2))%float).

(** ** Sorting and slicing *)

Section Sort.
Context {A : Type} (key : A -> float).

(** One step of the insertion: the sorted prefix is given last element
    first, and [x] moves left past every element whose key is greater
    ([key x < key y] is the only comparison made). *)
Fixpoint sift (x : A) (rev_prefix : list A) : list A :=
  match rev_prefix with
  | [] => [x]
  | y :: r => if (key x <? key y)%float then y :: sift x r else x :: y :: r
  end.

(** A stable ascending sort by [key], by insertion.  CPython's sort finds
    runs and merges them, making other comparisons; the result is the same
    whenever [<] totally preorders the keys, that is, when no key is NaN.
    With a NaN key the two still agree on a list in which no element
    compares smaller than its left neighbour: both leave it in place. *)
Definition sort_ascending (l : list A) : list A :=
  rev (fold_left (fun acc x => sift x acc) l []).

(** [l.sort(key=key, reverse=True)]: CPython reverses the list, sorts it
    ascending with a stable sort, and reverses the result, so that equal
    keys keep their original order. *)
Definition list_sort_reverse (l : list A) : list A :=
  rev (sort_ascending (rev l)).

End Sort.

(** [l[:stop]]. *)
Definition slice_to {A : Type} (l : list A) (stop : Z) : list A :=
  if (0 <=? stop)%Z
  then firstn (Z.to_nat stop) l
  else firstn (List.length l - Z.to_nat (- stop)) l.

(** The embedding cache in memory: clip identifier to vector. *)
Definition Embeddings := Dict.t pyval vector.

(** Lines 200-203: one score per cache entry, in iteration order. *)
Fixpoint calculate_similarities (query_embedding : vector)
    (items : list (pyval * vector)) : result (list (pyval * float)) :=
  match items with
  | [] => Ok []
  | (clip_id, clip_embedding) :: rest =>
      result_bind (cosine_similarity query_embedding clip_embedding)
        (fun similarity =>
      result_bind (calculate_similarities query_embedding rest)
        (fun similarities =>
      Ok ((clip_id, similarity) :: similarities)))
  end.

(** Lines 200-207: score, sort by score (highest first), keep [top_k]. *)
Definition rank (query_embedding : vector) (embeddings : Embeddings)
    (top_k : Z) : result (list (pyval * float)) :=
  result_bind (calculate_similarities query_embedding (Dict.items embeddings))
    (fun similarities =>
  let similarities := list_sort_reverse snd similarities in
  Ok (slice_to similarities top_k)).

(** ** JSON and the cache file *)

(** A JSON document as [json.load] reads it: an integer literal becomes an
    [int], any other number (also [NaN] and [Infinity]) a [float]. *)
#[local] Unset Elimination Schemes.
Inductive json : Type :=
| JNull
| JBool (b : bool)
| JInt (z : Z)
| JFloat (f : float)
| JStr (s : string)
| JArr (elements : list json)
| JObj (members : list (string * json)).
#[local] Set Elimination Schemes.

(** The key that [json.dump] writes for a dict key. *)
Definition json_key (k : pyval) : string :=
  match k with
  | VNone => "null"
  | VInt z => py_str (VInt z)
  | VStr s => s
  end.

(** The document that [json.dump(embeddings, f)] writes. *)
Definition json_dump (embeddings : Embeddings) : json :=
  JObj (map (fun kv => (json_key (fst kv), JArr (map JFloat (snd kv))))
          embeddings).

(** What [json.load] returns: a dict from strings to lists of floats when
    the document has that shape; any other document is kept as it is. *)
Inductive loaded : Type :=
| LoadedDict (embeddings : Embeddings)
| LoadedOther (document : json).

Fixpoint json_floats (elements : list json) : option vector :=
  match elements with
  | [] => Some []
  | JFloat f :: rest =>
      match json_floats rest with
      | Some v => Some (f :: v)
      | None => None
      end
  | _ :: _ => None
  end.

Fixpoint json_members (members : list (string * json))
  : option (list (pyval * vector)) :=
  match members with
  | [] => Some []
  | (k, JArr elements) :: rest =>
      match json_floats elements, json_members rest with
      | Some v, Some pairs => Some ((VStr k, v) :: pairs)
      | _, _ => None
      end
  | _ :: _ => None
  end.

(** A repeated member name keeps its first place and its last value, as
    the dict built by the decoder does. *)
Definition json_load (document : json) : loaded :=
  match document with
  | JObj members =>
      match json_members members with
      | Some pairs => LoadedDict (Dict.of_pairs pairs)
      | None => LoadedOther document
      end
  | _ => LoadedOther document
  end.

Definition json_truthy (j : json) : bool :=
  match j with
  | JNull => false
  | JBool b => b
  | JInt z => negb (z =? 0)%Z
  | JFloat f => negb (f =? 0)%float
  | JStr s => negb (s =? "")
  | JArr elements => match elements with [] => false | _ => true end
  | JObj members => match members with [] => false | _ => true end
  end.

Definition loaded_truthy (l : loaded) : bool :=
  match l with
  | LoadedDict embeddings => match embeddings with [] => false | _ => true end
  | LoadedOther document => json_truthy document
  end.

(** [embeddings.items()] on a loaded object.  An object that is not a dict
    has no [items]; a dict whose values are not lists of floats is outside
    what the model covers and is made to fail here as well. *)
Definition loaded_items (l : loaded) : result (list (pyval * vector)) :=
  match l with
  | LoadedDict embeddings => Ok (Dict.items embeddings)
  | LoadedOther (JObj _) =>
      Raise (Exn TypeError "cache values are not lists of floats")
  | LoadedOther _ => Raise (Exn AttributeError "object has no attribute 'items'")
  end.

(** The state of [EMBEDDINGS_FILE] on disk. *)
Inductive CacheFile : Type :=
| Absent                 (* [exists()] is false *)
| Unreadable             (* exists; [open] raises PermissionError *)
| Garbage                (* exists; the content is not a JSON document *)
| JsonText (j : json).   (* exists; the content is the text of [j] *)

(** ** The outside world and the monad of effects *)

Record World : Type := mkWorld {
  OPENAI_AVAILABLE : bool;
  OPENAI_API_KEY : option string;
  EMBEDDINGS_FILE : CacheFile;
  (* what [fetch_clips()] returns, or the exception it raises *)
  clips_table : result (list Clip);
  (* the provider: the embeddings of [response.data] for an input batch *)
  embeddings_create : list string -> result (list vector);
  (* the input of every provider call made so far, oldest first *)
  provider_calls : list (list string);
  (* [media_server.py]: whether importing [semantic_search] succeeded *)
  SEMANTIC_SEARCH_AVAILABLE : bool
}.

Definition with_file (f : CacheFile) (w : World) : World :=
  mkWorld (OPENAI_AVAILABLE w) (OPENAI_API_KEY w) f (clips_table w)
    (embeddings_create w) (provider_calls w) (SEMANTIC_SEARCH_AVAILABLE w).

Definition with_call (input : list string) (w : World) : World :=
  mkWorld (OPENAI_AVAILABLE w) (OPENAI_API_KEY w) (EMBEDDINGS_FILE w)
    (clips_table w) (embeddings_create w) (provider_calls w ++ [input])
    (SEMANTIC_SEARCH_AVAILABLE w).

Definition Py (A : Type) : Type := World -> result A * World.

Definition ret {A} (a : A) : Py A := fun w => (Ok a, w).
Definition raise {A} (e : exn) : Py A := fun w => (Raise e, w).
Definition lift {A} (r : result A) : Py A := fun w => (r, w).
Definition bind {A B} (m : Py A) (k : A -> Py B) : Py B :=
  fun w =>
    match m w with
    | (Ok a, w') => k a w'
    | (Raise e, w') => (Raise e, w')
    end.

Declare Scope py_scope.
Delimit Scope py_scope with py.
Notation "x <- m ;; k" := (bind m (fun x => k))
  (at level 61, m at next level, right associativity) : py_scope.
Local Open Scope py_scope.

Definition read {A} (field : World -> A) : Py A := fun w => (Ok (field w), w).

(** [fetch_clips()]. *)
Definition fetch_clips : Py (list Clip) := fun w => (clips_table w, w).

(** [client.embeddings.create(model=EMBEDDING_MODEL, input=input)]: the
    call is recorded whether or not it succeeds. *)
Definition client_embeddings_create (input : list string) : Py (list vector) :=
  fun w => (embeddings_create w input, with_call input w).

(** [not api_key] for the value of [os.environ.get(...)]. *)
Definition not_api_key (api_key : option string) : bool :=
  match api_key with
  | None => true
  | Some s => s =? ""
  end.

(** [clip[k]]. *)
Definition clip_getitem (clip : Clip) (k : string) : result pyval :=
  match Dict.lookup k clip with
  | Some v => Ok v
  | None => Raise (Exn KeyError ("'" ++ k ++ "'"))
  end.

(** ** [generate_embeddings_for_all_clips] *)

(** Lines 122-126: the texts and the identifiers, in the order of the clips. *)
Fixpoint prepare_batch (clips : list Clip)
  : result (list string * list pyval) :=
  match clips with
  | [] => Ok ([], [])
  | clip :: rest =>
      result_bind (clip_getitem clip "id") (fun clip_id =>
      let text := get_clip_text_representation clip in
      result_bind (prepare_batch rest) (fun batch =>
      Ok (text :: fst batch, clip_id :: snd batch)))
  end.

(** Lines 135-137: [embeddings[clip_ids[i]] = data[i].embedding] for
    [i = 0, 1, ...]. *)
Fixpoint collect_embeddings (clip_ids : list pyval) (data : list vector)
    (i : nat) (embeddings : Embeddings) : result Embeddings :=
  match data with
  | [] => Ok embeddings
  | embedding :: rest =>
      match nth_error clip_ids i with
      | Some clip_id =>
          collect_embeddings clip_ids rest (S i)
            (Dict.set clip_id embedding embeddings)
      | None => Raise (Exn IndexError "list index out of range")
      end
  end.

Definition generate_embeddings_for_all_clips : Py Embeddings :=
  available <- read OPENAI_AVAILABLE ;;
  if negb available
  then raise (Exn ImportError "OpenAI library not available")
  else
  api_key <- read OPENAI_API_KEY ;;
  if not_api_key api_key
  then raise (Exn ValueError "OPENAI_API_KEY environment variable not set")
  else
  clips <- fetch_clips ;;
  batch <- lift (prepare_batch clips) ;;
  let texts_to_embed := fst batch in
  let clip_ids := snd batch in
  match texts_to_embed with
  | _ :: _ =>
      data <- client_embeddings_create texts_to_embed ;;
      lift (collect_embeddings clip_ids data 0 [])
  | [] => ret []
  end.

(** ** [save_embeddings] and [load_embeddings] *)

(** The save fails here only where [open(EMBEDDINGS_FILE, 'w')] does, before
    anything is written.  [json.dump] itself cannot fail on a dict from
    [None], [int] or [str] keys to lists of floats, so a dump that stops
    half-way - which would leave the truncated file behind - needs an error
    of the disk, and those are not part of the world modelled here. *)
Definition save_embeddings (embeddings : Embeddings) : Py unit :=
  fun w =>
    match EMBEDDINGS_FILE w with
    | Unreadable => (Raise (Exn PermissionError "Permission denied"), w)
    | _ => (Ok tt, with_file (JsonText (json_dump embeddings)) w)
    end.

(** Rocq's [None] is Python's [None]. *)
Definition load_embeddings : Py (option loaded) :=
  fun w =>
    match EMBEDDINGS_FILE w with
    | Absent => (Ok None, w)
    | Unreadable => (Raise (Exn PermissionError "Permission denied"), w)
    | Garbage => (Raise (Exn JSONDecodeError "Expecting value"), w)
    | JsonText j => (Ok (Some (json_load j)), w)
    end.

(** ** [semantic_search] *)

(** A result: the copy of the clip record and, beside it, the value stored
    under ['similarity_score']. *)
Record RankedClip : Type := mkRanked {
  clip_data : Clip;
  similarity_score : float
}.

(** [not embeddings] for the value of [load_embeddings()]. *)
Definition not_embeddings (embeddings : option loaded) : bool :=
  match embeddings with
  | None => true
  | Some l => negb (loaded_truthy l)
  end.

(** Line 211: [{clip['id']: clip for clip in clips}]. *)
Fixpoint id_pairs (clips : list Clip) : result (list (pyval * Clip)) :=
  match clips with
  | [] => Ok []
  | clip :: rest =>
      result_bind (clip_getitem clip "id") (fun clip_id =>
      result_bind (id_pairs rest) (fun pairs =>
      Ok ((clip_id, clip) :: pairs)))
  end.

Definition clips_by_id_of (clips : list Clip) : result (Dict.t pyval Clip) :=
  result_bind (id_pairs clips) (fun pairs => Ok (Dict.of_pairs pairs)).

(** Lines 213-218: the join of the ranking with the current records. *)
Fixpoint join_results (top_results : list (pyval * float))
    (clips_by_id : Dict.t pyval Clip) : list RankedClip :=
  match top_results with
  | [] => []
  | (clip_id, similarity) :: rest =>
      match Dict.lookup clip_id clips_by_id with
      | Some clip => mkRanked clip similarity :: join_results rest clips_by_id
      | None => join_results rest clips_by_id
      end
  end.

Definition semantic_search (query : string) (top_k : Z)
  : Py (list RankedClip) :=
  available <- read OPENAI_AVAILABLE ;;
  if negb available
  then raise (Exn ImportError "OpenAI library not available")
  else
  api_key <- read OPENAI_API_KEY ;;
  if not_api_key api_key
  then raise (Exn ValueError "OPENAI_API_KEY environment variable not set")
  else
  (* Load embeddings *)
  embeddings <- load_embeddings ;;
  embeddings <-
    (if not_embeddings embeddings
     then
       generated <- generate_embeddings_for_all_clips ;;
       _ <- save_embeddings generated ;;
       ret (LoadedDict generated)
     else
       match embeddings with
       | Some l => ret l
       | None => ret (LoadedDict [])
       end) ;;
  (* Generate query embedding *)
  data <- client_embeddings_create [query] ;;
  query_embedding <-
    lift (match data with
          | embedding :: _ => Ok embedding
          | [] => Raise (Exn IndexError "list index out of range")
          end) ;;
  (* Calculate similarities, sort, keep the top *)
  items <- lift (loaded_items embeddings) ;;
  top_results <- lift (rank query_embedding items top_k) ;;
  (* Fetch full clip data *)
  clips <- fetch_clips ;;
  clips_by_id <- lift (clips_by_id_of clips) ;;
  ret (join_results top_results clips_by_id).

(** ** [rebuild_embeddings] *)

Inductive RebuildReport : Type :=
| RebuildSuccess (count : nat) (message : string)
| RebuildFailure (error : string).

Definition rebuild_embeddings : World -> RebuildReport * World :=
  fun w =>
    match (embeddings <- generate_embeddings_for_all_clips ;;
           _ <- save_embeddings embeddings ;;
           ret (RebuildSuccess (List.length embeddings)
                  ("Successfully generated "
                   ++ str_of_nat (List.length embeddings) ++ " embeddings")))
          w with
    | (Ok report, w') => (report, w')
    | (Raise e, w') => (RebuildFailure (exn_str e), w')
    end.

(** ** The endpoint [api_semantic_search] of [media_server.py]

    The request is taken to have passed [require_auth]; its body is a JSON
    object whose ['query'], when present, is a string and whose ['top_k'],
    when present, is an integer. *)

(** [c.isspace()] for a code point below 256. *)
Definition isspace (c : ascii) : bool :=
  let n := nat_of_ascii c in
  ((9 <=? n) && (n <=? 13) || (28 <=? n) && (n <=? 32)
   || (n =? 133) || (n =? 160))%nat.

Fixpoint lstrip_chars (s : list ascii) : list ascii :=
  match s with
  | [] => []
  | c :: rest => if isspace c then lstrip_chars rest else s
  end.

(** [s.strip()]. *)
Definition strip (s : string) : string :=
  string_of_list_ascii
    (rev (lstrip_chars (rev (lstrip_chars (list_ascii_of_string s))))).

(** A string that is empty or holds whitespace only. *)
Definition blank (s : string) : bool :=
  forallb isspace (list_ascii_of_string s).

Record Request : Type := mkRequest {
  req_query : option string;
  req_top_k : option Z
}.

(** [jsonify(...)] with its status: an error body ['error'] (and
    ['available'] where the code sets it), or the body of a success. *)
Inductive Response (T : Type) : Type :=
| ErrorResponse (status : Z) (error : string) (available : option bool)
| OkResponse (query : string) (count : nat) (results : list T).
Arguments ErrorResponse {T} status error available.
Arguments OkResponse {T} query count results.

Section Endpoint.
(** [transform_db_clip], the renaming of fields for the frontend, is left
    abstract. *)
Context {T : Type} (transform_db_clip : RankedClip -> result T).

Fixpoint transform_all (results : list RankedClip) : result (list T) :=
  match results with
  | [] => Ok []
  | clip :: rest =>
      result_bind (transform_db_clip clip) (fun t =>
      result_bind (transform_all rest) (fun ts => Ok (t :: ts)))
  end.

Definition api_semantic_search (request : Request)
  : World -> Response T * World :=
  fun w =>
    if negb (SEMANTIC_SEARCH_AVAILABLE w)
    then (ErrorResponse 501
            "Semantic search not available. Install: pip install openai numpy"
            (Some false), w)
    else if negb (OPENAI_AVAILABLE w)
    then (ErrorResponse 501 "OpenAI library not available" (Some false), w)
    else
      let query :=
        strip (match req_query request with Some q => q | None => "" end) in
      let top_k :=
        match req_top_k request with Some k => k | None => 20%Z end in
      if query =? ""
      then (ErrorResponse 400 "Query parameter required" None, w)
      else
        match (results <- semantic_search query top_k ;;
               transformed <- lift (transform_all results) ;;
               ret (OkResponse query (List.length transformed) transformed))
              w with
        | (Ok response, w') => (response, w')
        | (Raise e, w') =>
            if is_ValueError e
            then (ErrorResponse 400 (exn_str e) (Some false), w')
            else (ErrorResponse 500 (exn_str e) None, w')
        end.

End Endpoint.

(** ** The other endpoints of the search: [api_rebuild_embeddings] and
    [api_search_status] *)

(** The body of a response of [api_rebuild_embeddings]: the fixed error
    body of the 501 answer, or [{"ok": ok, **result}]. *)
Inductive RebuildBody : Type :=
| RebuildUnavailable
| RebuildResult (ok : bool) (report : RebuildReport).

(** The handler [except Exception] around [rebuild_embeddings()] is never
    entered: [rebuild_embeddings] catches every exception itself. *)
Definition api_rebuild_embeddings : World -> (Z * RebuildBody) * World :=
  fun w =>
    if negb (SEMANTIC_SEARCH_AVAILABLE w)
    then ((501%Z, RebuildUnavailable), w)
    else
      match rebuild_embeddings w with
      | (RebuildSuccess count message, w') =>
          ((200%Z, RebuildResult true (RebuildSuccess count message)), w')
      | (RebuildFailure error, w') =>
          ((500%Z, RebuildResult false (RebuildFailure error)), w')
      end.

(** The three flags of [api_search_status]. *)
Record SearchStatus : Type := mkStatus {
  semantic_search_available : bool;
  openai_available : bool;
  api_key_set : bool
}.

Definition api_search_status (w : World) : SearchStatus :=
  mkStatus (SEMANTIC_SEARCH_AVAILABLE w) (OPENAI_AVAILABLE w)
    (negb (not_api_key (OPENAI_API_KEY w))).

(** ** [auth.py]: the decorators of the endpoints

    A request is seen through what the decorators read: whether the server
    runs in the cloud ([is_cloud()]) and the payload that
    [get_user_from_token()] returns, [None] when the header is missing or
    the token is not valid.  The assignment [request.user = ...] is left
    out: neither endpoint below reads it. *)
Record Session : Type := mkSession {
  is_cloud : bool;
  user_from_token : option (Dict.t string pyval)
}.

(** [not user]: [None] and the empty payload are falsy. *)
Definition not_user (user : option (Dict.t string pyval)) : bool :=
  match user with
  | None => true
  | Some [] => true
  | Some (_ :: _) => false
  end.

(** [user.get('role') == 'guest']. *)
Definition is_guest (user : option (Dict.t string pyval)) : bool :=
  match user with
  | Some payload =>
      match Dict.lookup "role" payload with
      | Some role => pyval_eqb role (VStr "guest")
      | None => false
      end
  | None => false
  end.

(** What a decorated endpoint answers: the decorator's own error, or the
    answer of the endpoint. *)
Inductive Guarded (R : Type) : Type :=
| Rejected (status : Z) (error : string)
| Passed (response : R).
Arguments Rejected {R} status error.
Arguments Passed {R} response.

Section Decorators.
Context {R : Type} (f : World -> R * World).

Definition run_endpoint : World -> Guarded R * World :=
  fun w => let (response, w') := f w in (Passed response, w').

Definition require_auth (s : Session) : World -> Guarded R * World :=
  fun w =>
    if negb (is_cloud s) then run_endpoint w
    else
      let user := user_from_token s in
      if not_user user then (Rejected 401 "Authentication required", w)
      else run_endpoint w.

Definition require_write (s : Session) : World -> Guarded R * World :=
  fun w =>
    if negb (is_cloud s) then run_endpoint w
    else
      let user := user_from_token s in
      if not_user user then (Rejected 401 "Authentication required", w)
      else if is_guest user
      then (Rejected 403 "Write access not allowed for guest users", w)
      else run_endpoint w.

End Decorators.

(** ** [media_server.py], lines 17-26: the decorators as the server binds
    them

    The server tries [from auth import require_auth, require_write,
    require_admin].  When the import raises [ImportError] it sets
    [AUTH_AVAILABLE = False] and binds the names to the identity,
    [def require_auth(f): return f], so that the endpoints are served
    undecorated.  The two routes below are the endpoints under these
    bindings: lines 786-788 and 834-836. *)
Module media_server.

Section Bindings.
Context {R : Type} (AUTH_AVAILABLE : bool) (f : World -> R * World).

Definition require_auth (s : Session) : World -> Guarded R * World :=
  if AUTH_AVAILABLE then require_auth f s else run_endpoint f.

Definition require_write (s : Session) : World -> Guarded R * World :=
  if AUTH_AVAILABLE then require_write f s else run_endpoint f.

End Bindings.

(** [@app.route('/api/search/semantic')], [@require_auth]. *)
Definition route_search_semantic {T : Type} (AUTH_AVAILABLE : bool)
    (transform_db_clip : RankedClip -> result T) (request : Request)
    (s : Session) : World -> Guarded (Response T) * World :=
  require_auth AUTH_AVAILABLE (api_semantic_search transform_db_clip request)
    s.

(** [@app.route('/api/search/rebuild-embeddings')], [@require_write]. *)
Definition route_search_rebuild_embeddings (AUTH_AVAILABLE : bool)
    (s : Session) : World -> Guarded (Z * RebuildBody) * World :=
  require_write AUTH_AVAILABLE api_rebuild_embeddings s.

End media_server.

(** * Vocabulary of the properties

    Definitions that the statements below use: the projection written as a
    table, classes of floats, sortedness, the steps of the orchestrator
    under their own names, and the worlds of the examples. *)

(** ** The projection as a table *)

(** One row per field, in order, with the text written before and after
    the value.  [Alias a b] reads [a] and falls back to [b] when [a] is
    missing or falsy. *)
Inductive field_source : Type :=
| Field (key : string)
| Alias (primary legacy : string).

Record field_row : Type := Row {
  row_source : field_source;
  row_before : string;
  row_after : string
}.

Definition projected_fields : list field_row :=
  [ Row (Field "game_id") "Game " "";
    Row (Field "opponent") "vs " "";
    Row (Field "quarter") "Q" "";
    Row (Field "possession") "Possession " "";
    Row (Field "situation") "Situation: " "";
    Row (Field "formation") "Formation: " "";
    Row (Field "play_name") "Play: " "";
    Row (Alias "play_trigger" "action_trigger") "Trigger: " "";
    Row (Field "action_types") "Actions: " "";
    Row (Field "action_sequence") "Sequence: " "";
    Row (Field "scout_coverage") "Scout Coverage: " "";
    Row (Field "coverage") "Coverage: " "";
    Row (Field "ball_screen") "Ball Screen: " "";
    Row (Field "off_ball_screen") "Off Ball Screen: " "";
    Row (Field "help_rotation") "Help: " "";
    Row (Field "disruption") "Disruption: " "";
    Row (Field "breakdown") "Breakdown: " "";
    Row (Field "result") "Result: " "";
    Row (Field "shooter") "Shooter: " "";
    Row (Field "shot_location") "Shot Location: " "";
    Row (Field "shot_result") "Shot Result: " "";
    Row (Field "points") "" " points";
    Row (Field "rebound") "Rebound: " "";
    Row (Field "contest") "Contest: " "";
    Row (Field "paint_touch") "Paint Touch: " "";
    Row (Field "notes") "Notes: " "" ].

Definition field_value (clip : Clip) (src : field_source) : pyval :=
  match src with
  | Field k => clip_get clip k
  | Alias a b => py_or (clip_get clip a) (clip_get clip b)
  end.

(** The segment of one row: none when the value is falsy. *)
Definition segment (clip : Clip) (r : field_row) : list string :=
  let v := field_value clip (row_source r) in
  if truthy v then [(row_before r ++ py_str v ++ row_after r)%string] else [].

Definition project_by_table (clip : Clip) : string :=
  py_join " | " (flat_map (segment clip) projected_fields).

(** A segment of the shape ["Label: value"] for the given value: it ends
    with [": " ++ value] and has a non-empty label before it. *)
Fixpoint has_suffix (suffix s : string) : bool :=
  (s =? suffix) ||
  match s with
  | EmptyString => false
  | String _ s' => has_suffix suffix s'
  end.

Definition label_colon_value (seg value : string) : bool :=
  match seg with
  | EmptyString => false
  | String _ rest => has_suffix (": " ++ value)%string rest
  end.

(** Two values that the projector cannot tell apart: both falsy, or equal. *)
Definition same_segment (a b : pyval) : Prop :=
  (truthy a = false /\ truthy b = false) \/ a = b.

(** ** Classes and order of floats *)

(** Classes of a [spec_float], the view of a float that specifies the
    primitive operations. *)
Definition sf_zero (f : spec_float) : Prop :=
  match f with S754_zero _ => True | _ => False end.

Definition sf_zero_or_nan (f : spec_float) : Prop :=
  match f with S754_zero _ | S754_nan => True | _ => False end.

Definition sf_nan_or_inf (f : spec_float) : Prop :=
  match f with S754_nan | S754_infinity _ => True | _ => False end.

(** A vector whose every component is [0.0] or [-0.0]. *)
Definition zero_vector (v : vector) : Prop :=
  Forall (fun x => is_zero x = true) v.

(** Floats other than NaN are ordered as the keys below, compared
    lexicographically. *)
Definition sf_key (f : spec_float) : Z * Z * Z :=
  match f with
  | S754_zero _ => (0, 0, 0)
  | S754_infinity true => (-2, 0, 0)
  | S754_infinity false => (2, 0, 0)
  | S754_nan => (0, 0, 0)
  | S754_finite true m e => (-1, - e, Z.neg m)
  | S754_finite false m e => (1, e, Z.pos m)
  end%Z.

Definition key_lt (a b : Z * Z * Z) : Prop :=
  let '(a1, a2, a3) := a in
  let '(b1, b2, b3) := b in
  (a1 < b1 \/ (a1 = b1 /\ (a2 < b2 \/ (a2 = b2 /\ a3 < b3))))%Z.

Definition float_key (x : float) : Z * Z * Z := sf_key (Prim2SF x).

(** ** Sorted lists *)

Section SortSpec.
Context {A : Type} (key : A -> float).

Definition no_nan_keys (l : list A) : Prop :=
  Forall (fun a => is_nan (key a) = false) l.

(** Descending order, equal keys allowed. *)
Definition descending (l : list A) : Prop :=
  StronglySorted (fun a b => (key b <=? key a)%float = true) l.

End SortSpec.

(** ** Dictionaries whose key equality is lawful *)

Class PyEqOk (K : Type) `{PyEq K} : Prop :=
  py_eqb_eq : forall a b : K, py_eqb a b = true <-> a = b.

(** A cache whose identifiers are strings. *)
Definition string_keys (m : Embeddings) : Prop :=
  Forall (fun kv => exists s, fst kv = VStr s) m.

(** ** The steps of the orchestrator *)

(** Lines 186-189: the cache to rank against, rebuilt and saved when the
    loaded one is missing or falsy. *)
Definition ensure_cache (embeddings : option loaded) : Py loaded :=
  if not_embeddings embeddings
  then
    generated <- generate_embeddings_for_all_clips ;;
    _ <- save_embeddings generated ;;
    ret (LoadedDict generated)
  else
    match embeddings with
    | Some l => ret l
    | None => ret (LoadedDict [])
    end.

(** Lines 191-220: the answer, once the cache is there. *)
Definition answer_from (query : string) (top_k : Z) (embeddings : loaded)
  : Py (list RankedClip) :=
  data <- client_embeddings_create [query] ;;
  query_embedding <-
    lift (match data with
          | embedding :: _ => Ok embedding
          | [] => Raise (Exn IndexError "list index out of range")
          end) ;;
  items <- lift (loaded_items embeddings) ;;
  top_results <- lift (rank query_embedding items top_k) ;;
  clips <- fetch_clips ;;
  clips_by_id <- lift (clips_by_id_of clips) ;;
  ret (join_results top_results clips_by_id).

(** Lines 187-189 followed by the rest of the search. *)
Definition rebuild_then_answer (query : string) (top_k : Z)
  : Py (list RankedClip) :=
  generated <- generate_embeddings_for_all_clips ;;
  _ <- save_embeddings generated ;;
  answer_from query top_k (LoadedDict generated).

(** Whether the store holds a record with this identifier. *)
Definition store_has (clips : list Clip) (clip_id : pyval) : bool :=
  existsb (fun clip =>
             match clip_getitem clip "id" with
             | Ok i => py_eqb i clip_id
             | Raise _ => false
             end) clips.

(** ** The worlds of the examples *)

(** A world used by the examples: the library and the key are present, the
    cache holds two entries (one of them for an identifier the store does
    not have), the store holds one clip, and the provider embeds every
    text as [(1, 0)]. *)
Definition example_clip : Clip :=
  [("id", VStr "c1"); ("opponent", VStr "Duke"); ("result", VStr "Make")].

Definition example_cache : Embeddings :=
  [(VStr "c1", [1; 0]%float); (VStr "gone", [3; 4]%float)].

Definition example_world : World :=
  mkWorld true (Some "sk-test") (JsonText (json_dump example_cache))
    (Ok [example_clip])
    (fun texts => Ok (map (fun _ => [1; 0]%float) texts)) [] true.

(** A store that cannot be read. *)
Definition locked_world : World :=
  mkWorld true (Some "sk-test") (JsonText (json_dump example_cache))
    (Raise (Exn OtherError "database is locked"))
    (fun texts => Ok (map (fun _ => [1; 0]%float) texts)) [] true.

(** The example world with a cache file that holds [{}]. *)
Definition empty_cache_world : World :=
  with_file (JsonText (JObj [])) example_world.

(** * Properties *)

(** ** The text projector *)

Lemma append_if_app (cond : pyval) (seg : string) (parts : list string) :
  append_if cond seg parts = parts ++ (if truthy cond then [seg] else []).
Proof.
  unfold append_if. destruct (truthy cond); [reflexivity|].
  now rewrite app_nil_r.
Qed.

Lemma string_app_empty_r (s : string) : (s ++ "")%string = s.
Proof. induction s as [|c s IH]; simpl; [reflexivity | now rewrite IH]. Qed.

(** The statements of [get_clip_text_representation] append exactly the
    segments of the table, row by row. *)
Lemma projection_segments (clip : Clip) :
  get_clip_text_representation clip
  = py_join " | " (flat_map (segment clip) projected_fields).
Proof.
  unfold get_clip_text_representation.
  rewrite !append_if_app.
  unfold projected_fields, flat_map, segment, field_value;
    cbn [row_source row_before row_after].
  rewrite !string_app_empty_r, <- !app_assoc, app_nil_r. reflexivity.
Qed.

(** C4, as the specification states it, fails: the opponent is rendered as
    ["vs Duke"], which is not a ["Label: value"] segment. *)
Lemma projection_label_value_counterexample :
  get_clip_text_representation [("opponent", VStr "Duke")] = "vs Duke"
  /\ label_colon_value "vs Duke" "Duke" = false.
Proof. split; reflexivity. Qed.

(** C4 (amended): the projection of a clip is the join with [" | "] of the
    segments of the table [projected_fields], taken in the table's order;
    a row gives a segment exactly when its value is truthy, and the segment
    is the row's fixed text around [str(value)] - ["Label: value"] for
    most rows, but ["Game v"], ["vs v"], ["Qv"], ["Possession v"] and
    ["v points"] for five of them.  The trigger row reads [play_trigger]
    and falls back to [action_trigger]. *)
Theorem projection_follows_table (clip : Clip) :
  get_clip_text_representation clip = project_by_table clip.
Proof.
  unfold get_clip_text_representation, project_by_table.
  rewrite !append_if_app.
  unfold projected_fields, flat_map, segment, field_value;
    cbn [row_source row_before row_after].
  rewrite !string_app_empty_r.
  f_equal.
  rewrite <- !app_assoc, app_nil_r. reflexivity.
Qed.

(** *** Falsy values *)

Lemma clip_get_set (clip : Clip) (k k' : string) (v : pyval) :
  clip_get (Dict.set k v clip) k' = if k' =? k then v else clip_get clip k'.
Proof.
  unfold clip_get.
  induction clip as [|[k0 v0] clip IH]; simpl; unfold py_eqb, PyEq_string in *.
  - destruct (k' =? k); reflexivity.
  - destruct (k =? k0) eqn:Hk; simpl; unfold py_eqb, PyEq_string.
    + apply String.eqb_eq in Hk. subst k0.
      destruct (k' =? k); reflexivity.
    + destruct (k' =? k0) eqn:Hk'; [|exact IH].
      apply String.eqb_eq in Hk'. subst k0.
      rewrite String.eqb_sym, Hk. reflexivity.
Qed.

Lemma clip_get_remove (clip : Clip) (k k' : string) :
  clip_get (Dict.remove k clip) k' = if k' =? k then VNone else clip_get clip k'.
Proof.
  unfold clip_get.
  induction clip as [|[k0 v0] clip IH]; simpl; unfold py_eqb, PyEq_string in *.
  - destruct (k' =? k); reflexivity.
  - destruct (k =? k0) eqn:Hk; simpl; unfold py_eqb, PyEq_string.
    + apply String.eqb_eq in Hk. subst k0.
      rewrite IH. destruct (k' =? k); reflexivity.
    + destruct (k' =? k0) eqn:Hk'; [|exact IH].
      apply String.eqb_eq in Hk'. subst k0.
      rewrite String.eqb_sym, Hk. reflexivity.
Qed.

Lemma same_segment_or (a1 a2 b1 b2 : pyval) :
  same_segment a1 a2 -> same_segment b1 b2 ->
  same_segment (py_or a1 b1) (py_or a2 b2).
Proof.
  unfold same_segment, py_or.
  intros [[Ha1 Ha2]| ->] Hb.
  - now rewrite Ha1, Ha2.
  - destruct (truthy a2); [now right | exact Hb].
Qed.

Lemma segment_same (c1 c2 : Clip) (r : field_row) :
  (forall k, same_segment (clip_get c1 k) (clip_get c2 k)) ->
  segment c1 r = segment c2 r.
Proof.
  intros H. unfold segment.
  assert (Hv : same_segment (field_value c1 (row_source r))
                            (field_value c2 (row_source r))).
  { destruct (row_source r) as [k|a b]; simpl;
      [apply H | apply same_segment_or; apply H]. }
  destruct Hv as [[H1 H2]|Heq].
  - now rewrite H1, H2.
  - now rewrite Heq.
Qed.

Lemma projection_same (c1 c2 : Clip) :
  (forall k, same_segment (clip_get c1 k) (clip_get c2 k)) ->
  get_clip_text_representation c1 = get_clip_text_representation c2.
Proof.
  intros H. rewrite !projection_segments. f_equal.
  apply flat_map_ext. intros r. now apply segment_same.
Qed.

(** C9: a field whose value is falsy ([None], [0] or the empty string)
    gives no segment: the projection is the one of the clip without that
    field. *)
Theorem falsy_field_is_omitted (clip : Clip) (k : string) (v : pyval) :
  truthy v = false ->
  get_clip_text_representation (Dict.set k v clip)
  = get_clip_text_representation (Dict.remove k clip).
Proof.
  intros Hv. apply projection_same. intros k'.
  rewrite clip_get_set, clip_get_remove.
  destruct (k' =? k).
  - left. split; [exact Hv | reflexivity].
  - right. reflexivity.
Qed.

(** C9 at a clip whose [points] are [0]. *)
Lemma falsy_field_is_omitted_witness :
  truthy (VInt 0) = false
  /\ get_clip_text_representation
       (Dict.set "points" (VInt 0)
          [("opponent", VStr "Duke"); ("points", VInt 2); ("notes", VStr "and one")])
     = get_clip_text_representation
         (Dict.remove "points"
            [("opponent", VStr "Duke"); ("points", VInt 2); ("notes", VStr "and one")]).
Proof.
  split; [reflexivity|].
  apply (falsy_field_is_omitted
           [("opponent", VStr "Duke"); ("points", VInt 2); ("notes", VStr "and one")]
           "points" (VInt 0)).
  reflexivity.
Defined.

(** ** Floating-point facts

    The primitive operations are specified by [Prim2SF], the view of a
    float as a [spec_float]; the lemmas below read the classes (zero, NaN,
    infinity) of sums, products, quotients and square roots off that
    specification. *)

Lemma sf_zero_weaken f : sf_zero f -> sf_zero_or_nan f.
Proof. destruct f; simpl; tauto. Qed.

Lemma SFmul_zero_r x y : sf_zero y -> sf_zero_or_nan (SF64mul x y).
Proof. destruct x, y; simpl; tauto. Qed.

Lemma SFmul_zero_l x y : sf_zero x -> sf_zero_or_nan (SF64mul x y).
Proof. destruct x, y; simpl; tauto. Qed.

Lemma SFmul_zero_or_nan_r x y : sf_zero_or_nan y -> sf_zero_or_nan (SF64mul x y).
Proof. destruct x, y; simpl; tauto. Qed.

Lemma SFmul_zero_or_nan_l x y : sf_zero_or_nan x -> sf_zero_or_nan (SF64mul x y).
Proof. destruct x, y; simpl; tauto. Qed.

Lemma SFmul_zero_zero x y : sf_zero x -> sf_zero y -> sf_zero (SF64mul x y).
Proof. destruct x, y; simpl; tauto. Qed.

Lemma SFadd_zero_or_nan x y :
  sf_zero_or_nan x -> sf_zero_or_nan y -> sf_zero_or_nan (SF64add x y).
Proof. destruct x as [[]| | |], y as [[]| | |]; simpl; tauto. Qed.

Lemma SFadd_zero_zero x y : sf_zero x -> sf_zero y -> sf_zero (SF64add x y).
Proof. destruct x as [[]| | |], y as [[]| | |]; simpl; tauto. Qed.

Lemma SFsqrt_zero x : sf_zero x -> sf_zero (SF64sqrt x).
Proof. destruct x; simpl; tauto. Qed.

Lemma SFdiv_by_zero_or_nan x y :
  sf_zero_or_nan y -> sf_nan_or_inf (SF64div x y).
Proof. destruct x, y; simpl; tauto. Qed.

Lemma SFdiv_zero_or_nan x y :
  sf_zero_or_nan x -> sf_zero_or_nan y -> SF64div x y = S754_nan.
Proof. destruct x, y; simpl; tauto. Qed.

Lemma Prim2SF_zero : Prim2SF 0 = S754_zero false.
Proof. reflexivity. Qed.

Lemma Prim2SF_infinity : Prim2SF infinity = S754_infinity false.
Proof. reflexivity. Qed.

Lemma is_zero_Prim2SF (x : float) :
  is_zero x = true <-> sf_zero (Prim2SF x).
Proof.
  unfold is_zero. rewrite FloatAxioms.eqb_spec. change zero with 0%float.
  rewrite Prim2SF_zero.
  destruct (Prim2SF x) as [s|s| |s m e]; simpl; try destruct s;
    intuition discriminate.
Qed.

Lemma is_nan_Prim2SF (x : float) :
  is_nan x = true <-> Prim2SF x = S754_nan.
Proof.
  unfold is_nan. rewrite FloatAxioms.eqb_spec.
  destruct (Prim2SF x) as [s|s| |s m e] eqn:E; unfold SFeqb; simpl.
  - intuition discriminate.
  - destruct s; intuition discriminate.
  - intuition reflexivity.
  - destruct s; rewrite Z.compare_refl, Pos.compare_cont_refl; simpl;
      intuition discriminate.
Qed.

Lemma is_infinity_Prim2SF (x : float) (s : bool) :
  Prim2SF x = S754_infinity s -> is_infinity x = true.
Proof.
  intros E. unfold is_infinity.
  rewrite FloatAxioms.eqb_spec, abs_spec, E, Prim2SF_infinity. reflexivity.
Qed.

Lemma nan_or_inf_class (x : float) :
  sf_nan_or_inf (Prim2SF x) -> is_nan x = true \/ is_infinity x = true.
Proof.
  destruct (Prim2SF x) as [s|s| |s m e] eqn:E; simpl; try tauto; intros _.
  - right. now apply is_infinity_Prim2SF with s.
  - left. now apply is_nan_Prim2SF.
Qed.

Lemma dot_fold_zero_or_nan (pairs : list (float * float)) (acc : float) :
  Forall (fun xy => sf_zero_or_nan (SF64mul (Prim2SF (fst xy)) (Prim2SF (snd xy))))
    pairs ->
  sf_zero_or_nan (Prim2SF acc) ->
  sf_zero_or_nan
    (Prim2SF (fold_left (fun acc xy => (acc + fst xy * snd xy)%float) pairs acc)).
Proof.
  revert acc. induction pairs as [|xy pairs IH]; intros acc Hall Hacc; simpl.
  - exact Hacc.
  - inversion Hall as [|? ? Hxy Hrest]; subst.
    apply IH; [exact Hrest|].
    rewrite add_spec, mul_spec. now apply SFadd_zero_or_nan.
Qed.

Lemma combine_zero_r (q v : vector) :
  zero_vector v ->
  Forall (fun xy => sf_zero_or_nan (SF64mul (Prim2SF (fst xy)) (Prim2SF (snd xy))))
    (combine q v).
Proof.
  intros Hv. revert q.
  induction Hv as [|y v Hy Hv IH]; intros [|x q]; simpl; constructor.
  - simpl. apply SFmul_zero_r. now apply is_zero_Prim2SF.
  - apply IH.
Qed.

Lemma combine_zero_l (q v : vector) :
  zero_vector q ->
  Forall (fun xy => sf_zero_or_nan (SF64mul (Prim2SF (fst xy)) (Prim2SF (snd xy))))
    (combine q v).
Proof.
  intros Hq. revert v.
  induction Hq as [|x q Hx Hq IH]; intros [|y v]; simpl; constructor.
  - simpl. apply SFmul_zero_l. now apply is_zero_Prim2SF.
  - apply IH.
Qed.

Lemma norm_fold_zero (v : vector) (acc : float) :
  zero_vector v -> sf_zero (Prim2SF acc) ->
  sf_zero (Prim2SF (fold_left (fun acc x => (acc + x * x)%float) v acc)).
Proof.
  intros Hv. revert acc.
  induction Hv as [|x v Hx Hv IH]; intros acc Hacc; simpl.
  - exact Hacc.
  - apply IH. rewrite add_spec, mul_spec.
    apply is_zero_Prim2SF in Hx.
    apply SFadd_zero_zero; [exact Hacc | now apply SFmul_zero_zero].
Qed.

(** The norm of a zero vector is zero. *)
Lemma norm_zero_vector (v : vector) :
  zero_vector v -> is_zero (np_linalg_norm v) = true.
Proof.
  intros Hv. apply is_zero_Prim2SF. unfold np_linalg_norm.
  rewrite sqrt_spec. apply SFsqrt_zero.
  apply norm_fold_zero; [exact Hv | now rewrite Prim2SF_zero].
Qed.

Lemma np_dot_same_length (a b : vector) :
  List.length a = List.length b ->
  np_dot a b
  = Ok (fold_left (fun acc xy => (acc + fst xy * snd xy)%float)
          (combine a b) 0%float).
Proof. intros H. unfold np_dot. now rewrite H, Nat.eqb_refl. Qed.

(** ** Cosine similarity *)

(** C1, as the specification states it, fails: the score of a zero vector
    is NaN, not 0, and the zero-vector entry is ranked first, above the
    entry whose similarity is 1 (with [top_k = 1] it is the only result). *)
Lemma zero_vector_score_counterexample :
  cosine_similarity [1; 0]%float [0; 0]%float = Ok nan
  /\ rank [1; 0]%float
       [(VStr "zero", [0; 0]%float); (VStr "match", [1; 0]%float)] 1
     = Ok [(VStr "zero", nan)].
Proof. split; reflexivity. Qed.

(** C1 (amended): for a query vector and a corpus vector of the same length
    the score is computed without raising, but there is no guard for a
    zero norm: when either norm is zero the score is NaN or an infinity
    (never 0), and when either vector is a zero vector the score is NaN. *)
Theorem cosine_similarity_zero_norm (q v : vector) :
  List.length q = List.length v ->
  exists s,
    cosine_similarity q v = Ok s
    /\ (is_zero (np_linalg_norm q) = true \/ is_zero (np_linalg_norm v) = true ->
        is_nan s = true \/ is_infinity s = true)
    /\ (zero_vector q \/ zero_vector v -> is_nan s = true).
Proof.
  intros Hlen. unfold cosine_similarity.
  rewrite (np_dot_same_length _ _ Hlen). simpl.
  eexists. split; [reflexivity|]. split.
  - intros Hnorm. apply nan_or_inf_class.
    rewrite div_spec, mul_spec. apply SFdiv_by_zero_or_nan.
    destruct Hnorm as [Hq|Hv].
    + apply SFmul_zero_l. now apply is_zero_Prim2SF.
    + apply SFmul_zero_r. now apply is_zero_Prim2SF.
  - intros Hzero. apply is_nan_Prim2SF.
    rewrite div_spec, mul_spec. apply SFdiv_zero_or_nan.
    + apply dot_fold_zero_or_nan; [|now rewrite Prim2SF_zero].
      destruct Hzero as [Hq|Hv];
        [now apply combine_zero_l | now apply combine_zero_r].
    + destruct Hzero as [Hq|Hv].
      * apply SFmul_zero_l. now apply is_zero_Prim2SF, norm_zero_vector.
      * apply SFmul_zero_r. now apply is_zero_Prim2SF, norm_zero_vector.
Qed.

(** C1 (amended) at the query [(1, 0)] and the zero vector. *)
Lemma cosine_similarity_zero_norm_witness :
  List.length [1; 0]%float = List.length [0; 0]%float
  /\ exists s,
       cosine_similarity [1; 0]%float [0; 0]%float = Ok s
       /\ (is_zero (np_linalg_norm [1; 0]%float) = true
           \/ is_zero (np_linalg_norm [0; 0]%float) = true ->
           is_nan s = true \/ is_infinity s = true)
       /\ (zero_vector [1; 0]%float \/ zero_vector [0; 0]%float ->
           is_nan s = true).
Proof.
  split; [reflexivity|].
  apply (cosine_similarity_zero_norm [1; 0]%float [0; 0]%float).
  reflexivity.
Defined.

(** ** The order of floats

    Floats other than NaN are totally preordered by [<?]; the comparison
    is that of the keys below, ordered lexicographically. *)

Lemma SFcompare_key (f1 f2 : spec_float) :
  f1 <> S754_nan -> f2 <> S754_nan ->
  match SFcompare f1 f2 with
  | Some Lt => key_lt (sf_key f1) (sf_key f2)
  | Some Eq => sf_key f1 = sf_key f2
  | Some Gt => key_lt (sf_key f2) (sf_key f1)
  | None => False
  end.
Proof.
  intros H1 H2.
  destruct f1 as [s1|s1| |s1 m1 e1], f2 as [s2|s2| |s2 m2 e2];
    try congruence; try destruct s1; try destruct s2; simpl;
    try reflexivity; try lia.
  - change (PosDef.Pos.compare_cont Eq m1 m2) with (Pos.compare m1 m2).
    destruct (Z.compare_spec e1 e2) as [He|He|He];
      [destruct (Pos.compare_spec m1 m2) as [Hm|Hm|Hm]|..]; simpl;
      subst; try reflexivity; lia.
  - change (PosDef.Pos.compare_cont Eq m1 m2) with (Pos.compare m1 m2).
    destruct (Z.compare_spec e1 e2) as [He|He|He];
      [destruct (Pos.compare_spec m1 m2) as [Hm|Hm|Hm]|..]; simpl;
      subst; try reflexivity; lia.
Qed.

Lemma key_lt_irrefl a : ~ key_lt a a.
Proof. destruct a as [[a1 a2] a3]. simpl. lia. Qed.

Lemma key_lt_asym a b : key_lt a b -> ~ key_lt b a.
Proof. destruct a as [[a1 a2] a3], b as [[b1 b2] b3]. simpl. lia. Qed.

Lemma key_lt_trans a b c : key_lt a b -> key_lt b c -> key_lt a c.
Proof.
  destruct a as [[a1 a2] a3], b as [[b1 b2] b3], c as [[c1 c2] c3].
  simpl. lia.
Qed.

Lemma key_lt_le_trans a b c : key_lt a b -> ~ key_lt c b -> key_lt a c.
Proof.
  destruct a as [[a1 a2] a3], b as [[b1 b2] b3], c as [[c1 c2] c3].
  simpl. lia.
Qed.

Lemma key_total a b : key_lt a b \/ a = b \/ key_lt b a.
Proof.
  destruct a as [[a1 a2] a3], b as [[b1 b2] b3]. simpl.
  destruct (Z.lt_trichotomy a1 b1) as [|[->|]]; [lia| |lia].
  destruct (Z.lt_trichotomy a2 b2) as [|[->|]]; [lia| |lia].
  destruct (Z.lt_trichotomy a3 b3) as [|[->|]]; [lia| |lia].
  right. left. reflexivity.
Qed.

Lemma not_nan_Prim2SF (x : float) : is_nan x = false -> Prim2SF x <> S754_nan.
Proof.
  intros H E. apply is_nan_Prim2SF in E. congruence.
Qed.

Lemma ltb_key (x y : float) :
  is_nan x = false -> is_nan y = false ->
  (x <? y)%float = true <-> key_lt (float_key x) (float_key y).
Proof.
  intros Hx Hy. rewrite ltb_spec. unfold SFltb, float_key.
  pose proof (SFcompare_key _ _ (not_nan_Prim2SF _ Hx) (not_nan_Prim2SF _ Hy)) as H.
  destruct (SFcompare (Prim2SF x) (Prim2SF y)) as [[| |]|]; try tauto.
  - rewrite H. split; [discriminate | intros K; now apply key_lt_irrefl in K].
  - split; [discriminate | intros K; now apply key_lt_asym in K].
Qed.

Lemma eqb_key (x y : float) :
  is_nan x = false -> is_nan y = false ->
  (x =? y)%float = true <-> float_key x = float_key y.
Proof.
  intros Hx Hy. rewrite FloatAxioms.eqb_spec. unfold SFeqb, float_key.
  pose proof (SFcompare_key _ _ (not_nan_Prim2SF _ Hx) (not_nan_Prim2SF _ Hy)) as H.
  destruct (SFcompare (Prim2SF x) (Prim2SF y)) as [[| |]|]; try tauto.
  - split; [discriminate | intros K; rewrite K in H; now apply key_lt_irrefl in H].
  - split; [discriminate | intros K; rewrite K in H; now apply key_lt_irrefl in H].
Qed.

Lemma leb_key (x y : float) :
  is_nan x = false -> is_nan y = false ->
  (x <=? y)%float = true <-> ~ key_lt (float_key y) (float_key x).
Proof.
  intros Hx Hy. rewrite leb_spec. unfold SFleb, float_key.
  pose proof (SFcompare_key _ _ (not_nan_Prim2SF _ Hx) (not_nan_Prim2SF _ Hy)) as H.
  destruct (SFcompare (Prim2SF x) (Prim2SF y)) as [[| |]|]; try tauto.
  - rewrite H. split; [intros _; apply key_lt_irrefl | reflexivity].
  - split; [intros _; now apply key_lt_asym | reflexivity].
  - split; [discriminate | tauto].
Qed.

(** An equality test that succeeds involves no NaN. *)
Lemma eqb_true_not_nan (x y : float) :
  (x =? y)%float = true -> is_nan x = false /\ is_nan y = false.
Proof.
  rewrite FloatAxioms.eqb_spec. intros H.
  split; apply not_true_is_false; intros E; apply is_nan_Prim2SF in E;
    rewrite E in H; unfold SFeqb in H; simpl in H;
    [|destruct (Prim2SF x)]; discriminate.
Qed.

(** ** Sorting *)

Section SortFacts.
Context {A : Type} (key : A -> float).

(** The three passes of [list_sort_reverse] amount to one insertion sort
    from the right end of the list. *)
Lemma list_sort_reverse_fold (l : list A) :
  list_sort_reverse key l = fold_right (sift key) [] l.
Proof.
  unfold list_sort_reverse, sort_ascending.
  rewrite rev_involutive.
  rewrite <- (rev_involutive l) at 2.
  now rewrite fold_left_rev_right.
Qed.

Lemma sift_perm (x : A) (l : list A) : Permutation (sift key x l) (x :: l).
Proof.
  induction l as [|y r IH]; simpl; [reflexivity|].
  destruct (key x <? key y)%float; [|reflexivity].
  rewrite IH. apply perm_swap.
Qed.

Lemma sort_perm (l : list A) : Permutation (fold_right (sift key) [] l) l.
Proof.
  induction l as [|x l IH]; simpl; [reflexivity|].
  rewrite sift_perm. now constructor.
Qed.

Lemma sift_descending (x : A) (l : list A) :
  is_nan (key x) = false -> no_nan_keys key l ->
  descending key l -> descending key (sift key x l).
Proof.
  intros Hx Hl Hs.
  induction Hs as [|y r Hr IH Hy]; simpl.
  - repeat constructor.
  - inversion Hl as [|? ? Hy' Hr']; subst.
    destruct (key x <? key y)%float eqn:E.
    + constructor; [now apply IH|].
      apply (Permutation_Forall (Permutation_sym (sift_perm x r))).
      constructor; [|exact Hy].
      apply leb_key; trivial. apply key_lt_asym.
      now apply ltb_key.
    + assert (Hyx : ~ key_lt (float_key (key x)) (float_key (key y))).
      { intros K. apply ltb_key in K; trivial. congruence. }
      constructor; [now constructor|].
      constructor; [now apply leb_key|].
      rewrite Forall_forall in Hy |- *. intros z Hz.
      specialize (Hy z Hz).
      assert (Hz' : is_nan (key z) = false).
      { unfold no_nan_keys in Hr'. rewrite Forall_forall in Hr'. now apply Hr'. }
      apply leb_key in Hy; trivial. apply leb_key; trivial.
      intros K. apply Hyx. now apply key_lt_le_trans with (float_key (key z)).
Qed.

Lemma sift_no_nan (x : A) (l : list A) :
  is_nan (key x) = false -> no_nan_keys key l -> no_nan_keys key (sift key x l).
Proof.
  intros Hx Hl.
  apply (Permutation_Forall (Permutation_sym (sift_perm x l))).
  now constructor.
Qed.

Lemma sort_no_nan (l : list A) :
  no_nan_keys key l -> no_nan_keys key (fold_right (sift key) [] l).
Proof.
  intros H. apply (Permutation_Forall (Permutation_sym (sort_perm l))), H.
Qed.

Lemma sort_descending (l : list A) :
  no_nan_keys key l -> descending key (fold_right (sift key) [] l).
Proof.
  induction 1 as [|x l Hx Hl IH]; simpl.
  - constructor.
  - apply sift_descending; trivial. now apply sort_no_nan.
Qed.

(** Stability: the elements of any one score keep their order. *)
Lemma sift_filter (s : float) (x : A) (l : list A) :
  is_nan (key x) = false -> no_nan_keys key l ->
  filter (fun a => (key a =? s)%float) (sift key x l)
  = filter (fun a => (key a =? s)%float) (x :: l).
Proof.
  intros Hx Hl.
  induction Hl as [|y r Hy Hr IH]; [reflexivity|].
  simpl. destruct (key x <? key y)%float eqn:E; [|reflexivity].
  simpl. rewrite IH. simpl.
  destruct (key x =? s)%float eqn:Ex, (key y =? s)%float eqn:Ey;
    try reflexivity.
  exfalso.
  destruct (eqb_true_not_nan _ _ Ex) as [_ Hs].
  apply eqb_key in Ex, Ey; trivial.
  apply ltb_key in E; trivial.
  rewrite Ex, <- Ey in E. now apply key_lt_irrefl in E.
Qed.

Lemma sort_filter (s : float) (l : list A) :
  no_nan_keys key l ->
  filter (fun a => (key a =? s)%float) (fold_right (sift key) [] l)
  = filter (fun a => (key a =? s)%float) l.
Proof.
  induction 1 as [|x l Hx Hl IH]; [reflexivity|].
  simpl fold_right. rewrite sift_filter; trivial; [|now apply sort_no_nan].
  simpl. now rewrite IH.
Qed.

End SortFacts.

Lemma slice_to_firstn {A : Type} (l : list A) (stop : Z) :
  (0 <= stop)%Z -> slice_to l stop = firstn (Z.to_nat stop) l.
Proof.
  intros H. unfold slice_to.
  destruct (Z.leb_spec 0 stop); [reflexivity | lia].
Qed.

(** ** Ranking *)

Lemma calculate_similarities_spec (q : vector) (items : list (pyval * vector))
    (sims : list (pyval * float)) :
  calculate_similarities q items = Ok sims ->
  Forall2 (fun kv p => fst p = fst kv /\ cosine_similarity q (snd kv) = Ok (snd p))
    items sims.
Proof.
  revert sims. induction items as [|[k v] items IH]; intros sims H; simpl in H.
  - injection H as <-. constructor.
  - destruct (cosine_similarity q v) as [s|e] eqn:Es; simpl in H; [|discriminate].
    destruct (calculate_similarities q items) as [rest|e] eqn:Er; simpl in H;
      [|discriminate].
    injection H as <-. constructor; [now split | now apply IH].
Qed.

Lemma calculate_similarities_total (q : vector) (items : list (pyval * vector)) :
  Forall (fun kv => List.length q = List.length (snd kv)) items ->
  exists sims, calculate_similarities q items = Ok sims.
Proof.
  induction 1 as [|[k v] items Hv Hrest [rest IH]]; simpl.
  - now exists [].
  - simpl in Hv. unfold cosine_similarity at 1.
    rewrite (np_dot_same_length _ _ Hv). simpl. rewrite IH. simpl. eauto.
Qed.

(** C5, as the specification states it, fails when a score is NaN: with the
    query [(1, 0)] the entry ["a"] (score 0.6) is ranked before ["b"]
    (score 1), because the zero vector between them compares as neither
    smaller nor greater and the sort leaves the three in place. *)
Lemma rank_with_nan_counterexample :
  rank [1; 0]%float
    [(VStr "a", [3; 4]%float); (VStr "zero", [0; 0]%float);
     (VStr "b", [1; 0]%float)] 3
  = Ok [(VStr "a", (3 / 5)%float); (VStr "zero", nan); (VStr "b", 1%float)]
  /\ (3 / 5 <? 1)%float = true.
Proof. split; reflexivity. Qed.

(** C5 (amended): when every score is computed and none is NaN, the ranking
    for a non-negative [top_k] is the first [min(top_k, |corpus|)] entries
    of the stable descending sort of the scored corpus: together with the
    entries cut off it is a permutation of the (identifier, score) pairs,
    scores never increase, and entries of equal score keep the corpus's
    iteration order; [top_k >= |corpus|] cuts nothing off. *)
Theorem rank_is_stable_top_k (q : vector) (corpus : Embeddings) (top_k : Z)
    (sims : list (pyval * float)) :
  (0 <= top_k)%Z ->
  calculate_similarities q (Dict.items corpus) = Ok sims ->
  no_nan_keys snd sims ->
  Forall2 (fun kv p => fst p = fst kv /\ cosine_similarity q (snd kv) = Ok (snd p))
    corpus sims
  /\ exists ranked rest,
       rank q corpus top_k = Ok ranked
       /\ List.length ranked = Nat.min (Z.to_nat top_k) (List.length corpus)
       /\ Permutation (ranked ++ rest) sims
       /\ descending snd (ranked ++ rest)
       /\ (forall s, filter (fun p => (snd p =? s)%float) (ranked ++ rest)
                     = filter (fun p => (snd p =? s)%float) sims)
       /\ ((List.length corpus <= Z.to_nat top_k)%nat -> rest = []).
Proof.
  intros Hk Hsims Hnan.
  pose proof (calculate_similarities_spec _ _ _ Hsims) as Hspec.
  split; [exact Hspec|].
  assert (Hlen : List.length sims = List.length corpus).
  { symmetry. exact (Forall2_length Hspec). }
  set (sorted := fold_right (sift snd) [] sims).
  exists (firstn (Z.to_nat top_k) sorted), (skipn (Z.to_nat top_k) sorted).
  assert (Hsorted_len : List.length sorted = List.length corpus).
  { rewrite <- Hlen. apply Permutation_length, sort_perm. }
  repeat split.
  - unfold rank. rewrite Hsims. simpl.
    now rewrite slice_to_firstn, list_sort_reverse_fold.
  - rewrite length_firstn. now rewrite Hsorted_len.
  - rewrite firstn_skipn. apply sort_perm.
  - rewrite firstn_skipn. now apply sort_descending.
  - intros s. rewrite firstn_skipn. now apply sort_filter.
  - intros Hall. apply skipn_all2. lia.
Qed.

(** C5 (amended) at a corpus of four with two ties and [top_k = 3]. *)
Lemma rank_is_stable_top_k_witness :
  (0 <= 3)%Z
  /\ calculate_similarities [1; 0]%float
       (Dict.items [(VStr "a", [3; 4]%float); (VStr "b", [1; 0]%float);
                    (VStr "c", [6; 8]%float); (VStr "d", [2; 0]%float)])
     = Ok [(VStr "a", (3 / 5)%float); (VStr "b", 1%float);
           (VStr "c", (3 / 5)%float); (VStr "d", 1%float)]
  /\ no_nan_keys snd
       [(VStr "a", (3 / 5)%float); (VStr "b", 1%float);
        (VStr "c", (3 / 5)%float); (VStr "d", 1%float)]
  /\ (Forall2
        (fun kv p => fst p = fst kv
                     /\ cosine_similarity [1; 0]%float (snd kv) = Ok (snd p))
        [(VStr "a", [3; 4]%float); (VStr "b", [1; 0]%float);
         (VStr "c", [6; 8]%float); (VStr "d", [2; 0]%float)]
        [(VStr "a", (3 / 5)%float); (VStr "b", 1%float);
         (VStr "c", (3 / 5)%float); (VStr "d", 1%float)]
      /\ exists ranked rest,
           rank [1; 0]%float
             [(VStr "a", [3; 4]%float); (VStr "b", [1; 0]%float);
              (VStr "c", [6; 8]%float); (VStr "d", [2; 0]%float)] 3
           = Ok ranked
           /\ List.length ranked = Nat.min (Z.to_nat 3) 4
           /\ Permutation (ranked ++ rest)
                [(VStr "a", (3 / 5)%float); (VStr "b", 1%float);
                 (VStr "c", (3 / 5)%float); (VStr "d", 1%float)]
           /\ descending snd (ranked ++ rest)
           /\ (forall s,
                  filter (fun p => (snd p =? s)%float) (ranked ++ rest)
                  = filter (fun p => (snd p =? s)%float)
                      [(VStr "a", (3 / 5)%float); (VStr "b", 1%float);
                       (VStr "c", (3 / 5)%float); (VStr "d", 1%float)])
           /\ ((4 <= Z.to_nat 3)%nat -> rest = [])).
Proof.
  assert (H0 : (0 <= 3)%Z) by lia.
  assert (H1 : calculate_similarities [1; 0]%float
       (Dict.items [(VStr "a", [3; 4]%float); (VStr "b", [1; 0]%float);
                    (VStr "c", [6; 8]%float); (VStr "d", [2; 0]%float)])
     = Ok [(VStr "a", (3 / 5)%float); (VStr "b", 1%float);
           (VStr "c", (3 / 5)%float); (VStr "d", 1%float)]) by reflexivity.
  assert (H2 : no_nan_keys snd
       [(VStr "a", (3 / 5)%float); (VStr "b", 1%float);
        (VStr "c", (3 / 5)%float); (VStr "d", 1%float)])
    by (repeat constructor).
  split; [exact H0|]. split; [exact H1|]. split; [exact H2|].
  exact (rank_is_stable_top_k _ _ _ _ H0 H1 H2).
Defined.

(** ** Dictionaries: keys compared by a lawful equality *)

#[export] Instance PyEqOk_string : PyEqOk string.
Proof. intros a b. apply String.eqb_eq. Qed.

#[export] Instance PyEqOk_pyval : PyEqOk pyval.
Proof.
  intros a b. unfold py_eqb, PyEq_pyval.
  destruct a, b; simpl; try (split; [discriminate | congruence]).
  - tauto.
  - rewrite Z.eqb_eq. split; congruence.
  - rewrite String.eqb_eq. split; congruence.
Qed.

Section DictFacts.
Context {K V : Type} `{PyEqOk K}.

Lemma py_eqb_refl (k : K) : py_eqb k k = true.
Proof. now apply py_eqb_eq. Qed.

Lemma py_eqb_neq (a b : K) : a <> b -> py_eqb a b = false.
Proof.
  intros Hab. destruct (py_eqb a b) eqn:E; [|reflexivity].
  apply py_eqb_eq in E. contradiction.
Qed.

Lemma lookup_In (k : K) (v : V) (d : Dict.t K V) :
  Dict.lookup k d = Some v -> In (k, v) d.
Proof.
  induction d as [|[k' v'] d IH]; simpl; [discriminate|].
  destruct (py_eqb k k') eqn:E.
  - apply py_eqb_eq in E. intros [= ->]. subst. now left.
  - intros Hl. right. now apply IH.
Qed.

Lemma lookup_None (k : K) (d : Dict.t K V) :
  Dict.lookup k d = None <-> ~ In k (Dict.keys d).
Proof.
  induction d as [|[k' v'] d IH]; simpl; [tauto|].
  destruct (py_eqb k k') eqn:E.
  - apply py_eqb_eq in E. subst. split; [discriminate | tauto].
  - rewrite IH. split; [|tauto].
    intros Hn [->|Hin]; [|tauto]. now rewrite py_eqb_refl in E.
Qed.

(** Setting a key that is not in the dict appends the entry. *)
Lemma set_fresh (k : K) (v : V) (d : Dict.t K V) :
  ~ In k (Dict.keys d) -> Dict.set k v d = d ++ [(k, v)].
Proof.
  induction d as [|[k' v'] d IH]; simpl; intros Hk; [reflexivity|].
  rewrite py_eqb_neq by (intros ->; tauto). rewrite IH by tauto. reflexivity.
Qed.

Lemma set_keys_In (k k0 : K) (v : V) (d : Dict.t K V) :
  In k0 (Dict.keys (Dict.set k v d)) <-> k0 = k \/ In k0 (Dict.keys d).
Proof.
  induction d as [|[k' v'] d IH]; simpl; [intuition congruence|].
  destruct (py_eqb k k') eqn:E; simpl.
  - apply py_eqb_eq in E. subst. intuition congruence.
  - rewrite IH. intuition congruence.
Qed.

Lemma set_In (k k0 : K) (v v0 : V) (d : Dict.t K V) :
  In (k0, v0) (Dict.set k v d) -> (k0, v0) = (k, v) \/ In (k0, v0) d.
Proof.
  induction d as [|[k' v'] d IH]; simpl.
  - intros [E|[]]. left. now symmetry.
  - destruct (py_eqb k k') eqn:Ek; simpl.
    + apply py_eqb_eq in Ek. subst. intros [E|Hin]; [|tauto].
      left. now symmetry.
    + intros [E|Hin]; [tauto|]. apply IH in Hin. tauto.
Qed.

Lemma fold_set_fresh (pairs d : list (K * V)) :
  NoDup (map fst (d ++ pairs)) ->
  fold_left (fun d kv => Dict.set (fst kv) (snd kv) d) pairs d = d ++ pairs.
Proof.
  revert d. induction pairs as [|[k v] pairs IH]; intros d Hnd; simpl.
  - now rewrite app_nil_r.
  - rewrite set_fresh.
    + rewrite IH; rewrite <- app_assoc; [reflexivity | exact Hnd].
    + rewrite map_app in Hnd. simpl in Hnd.
      apply NoDup_remove_2 in Hnd. intros Hin. apply Hnd.
      apply in_or_app. now left.
Qed.

(** Building a dict from pairs with distinct keys keeps the pairs. *)
Lemma of_pairs_nodup (pairs : list (K * V)) :
  NoDup (map fst pairs) -> Dict.of_pairs pairs = pairs.
Proof. intros Hnd. unfold Dict.of_pairs. now rewrite fold_set_fresh. Qed.

Lemma fold_set_In (pairs d : list (K * V)) (k : K) (v : V) :
  In (k, v) (fold_left (fun d kv => Dict.set (fst kv) (snd kv) d) pairs d) ->
  In (k, v) d \/ In (k, v) pairs.
Proof.
  revert d. induction pairs as [|[k' v'] pairs IH]; intros d Hin; simpl in *.
  - now left.
  - apply IH in Hin. destruct Hin as [Hin|Hin]; [|tauto].
    apply set_In in Hin. destruct Hin as [E|Hin]; [|tauto].
    right. left. now symmetry.
Qed.

Lemma of_pairs_In (pairs : list (K * V)) (k : K) (v : V) :
  In (k, v) (Dict.of_pairs pairs) -> In (k, v) pairs.
Proof.
  intros Hin. apply fold_set_In in Hin. destruct Hin as [[]|Hin]. exact Hin.
Qed.

End DictFacts.

(** ** The cache file: saving and loading *)

Lemma json_floats_dump (v : vector) : json_floats (map JFloat v) = Some v.
Proof. induction v as [|x v IH]; simpl; [reflexivity | now rewrite IH]. Qed.

Lemma json_members_dump (m : Embeddings) :
  string_keys m ->
  json_members
    (map (fun kv => (json_key (fst kv), JArr (map JFloat (snd kv)))) m)
  = Some m.
Proof.
  induction 1 as [|[k v] m [s Hk] Hm IH]; simpl; [reflexivity|].
  simpl in Hk. subst k. simpl. now rewrite json_floats_dump, IH.
Qed.

(** Reading back what [json.dump] wrote gives the dict that was written,
    when its keys are strings. *)
Lemma json_load_dump (m : Embeddings) :
  string_keys m -> NoDup (Dict.keys m) ->
  json_load (json_dump m) = LoadedDict m.
Proof.
  intros Hs Hnd. unfold json_load, json_dump.
  rewrite json_members_dump by exact Hs.
  now rewrite of_pairs_nodup.
Qed.

(** C7: for a mapping (empty or not) from string identifiers to vectors of
    floats, saving it to a cache file that can be written and loading the
    file returns a dict equal to the mapping, entry for entry and in the
    same order. *)
Theorem save_then_load_roundtrip (m : Embeddings) (w : World) :
  string_keys m -> NoDup (Dict.keys m) ->
  EMBEDDINGS_FILE w <> Unreadable ->
  exists w1,
    save_embeddings m w = (Ok tt, w1)
    /\ load_embeddings w1 = (Ok (Some (LoadedDict m)), w1).
Proof.
  intros Hs Hnd Hfile.
  exists (with_file (JsonText (json_dump m)) w). split.
  - unfold save_embeddings. destruct (EMBEDDINGS_FILE w); congruence.
  - unfold load_embeddings, with_file. cbn [EMBEDDINGS_FILE].
    now rewrite json_load_dump.
Qed.

(** C7 at the example cache. *)
Lemma save_then_load_roundtrip_witness :
  string_keys example_cache
  /\ NoDup (Dict.keys example_cache)
  /\ EMBEDDINGS_FILE example_world <> Unreadable
  /\ exists w1,
       save_embeddings example_cache example_world = (Ok tt, w1)
       /\ load_embeddings w1 = (Ok (Some (LoadedDict example_cache)), w1).
Proof.
  assert (H1 : string_keys example_cache)
    by (repeat constructor; simpl; eauto).
  assert (H2 : NoDup (Dict.keys example_cache)).
  { repeat constructor; simpl; intuition discriminate. }
  assert (H3 : EMBEDDINGS_FILE example_world <> Unreadable) by discriminate.
  split; [exact H1|]. split; [exact H2|]. split; [exact H3|].
  exact (save_then_load_roundtrip example_cache example_world H1 H2 H3).
Defined.

(** ** The query path: validation and the cache *)

Lemma lstrip_chars_blank (l : list ascii) :
  forallb isspace l = true -> lstrip_chars l = [].
Proof.
  induction l as [|c l IH]; simpl; [reflexivity|].
  destruct (isspace c); simpl; [exact IH | discriminate].
Qed.

Lemma strip_blank (s : string) : blank s = true -> strip s = "".
Proof.
  unfold blank, strip. intros H. rewrite (lstrip_chars_blank _ H).
  reflexivity.
Qed.

(** C2, as the specification states it, fails: [semantic_search] does not
    look at the query before using it; for the query of three spaces it
    calls the provider with that query and returns a result. *)
Lemma blank_query_reaches_provider_counterexample :
  blank "   " = true
  /\ fst (semantic_search "   " 5 example_world)
     = Ok [mkRanked example_clip 1%float]
  /\ provider_calls (snd (semantic_search "   " 5 example_world)) = [["   "]].
Proof. repeat split; reflexivity. Qed.

(** C2 (amended): the empty query is rejected by the endpoint
    [api_semantic_search], not by [semantic_search]: when the query of the
    request is missing, empty or whitespace-only, the endpoint answers 400
    with the error ["Query parameter required"] - an error response, not a
    success with an empty result list - and leaves the world as it was: no
    call to [semantic_search] and none to the embedding provider. *)
Theorem endpoint_rejects_blank_query {T : Type}
    (transform_db_clip : RankedClip -> result T) (request : Request)
    (w : World) :
  SEMANTIC_SEARCH_AVAILABLE w = true ->
  OPENAI_AVAILABLE w = true ->
  blank (match req_query request with Some q => q | None => "" end) = true ->
  api_semantic_search transform_db_clip request w
  = (ErrorResponse 400 "Query parameter required" None, w).
Proof.
  intros Hs Ho Hq. unfold api_semantic_search.
  rewrite Hs, Ho. simpl negb. cbv iota.
  now rewrite (strip_blank _ Hq).
Qed.

(** C2 (amended) at the request [{"query": "   ", "top_k": 5}]. *)
Lemma endpoint_rejects_blank_query_witness :
  SEMANTIC_SEARCH_AVAILABLE example_world = true
  /\ OPENAI_AVAILABLE example_world = true
  /\ blank "   " = true
  /\ api_semantic_search (fun r => Ok r) (mkRequest (Some "   ") (Some 5%Z))
       example_world
     = (ErrorResponse 400 "Query parameter required" None, example_world).
Proof.
  repeat (split; [reflexivity|]).
  apply (endpoint_rejects_blank_query (fun r => Ok r)
           (mkRequest (Some "   ") (Some 5%Z)) example_world);
    reflexivity.
Defined.

(** C3, as the specification states it, fails: with a cache file that is
    not JSON, [load_embeddings] raises, and [semantic_search] ends with
    that exception; nothing is rebuilt, the file stays as it was and the
    provider is not called. *)
Lemma corrupt_cache_counterexample :
  load_embeddings (with_file Garbage example_world)
  = (Raise (Exn JSONDecodeError "Expecting value"),
     with_file Garbage example_world)
  /\ semantic_search "drop coverage" 5 (with_file Garbage example_world)
     = (Raise (Exn JSONDecodeError "Expecting value"),
        with_file Garbage example_world).
Proof. split; reflexivity. Qed.

(** C3 (amended): when the cache file exists but is not JSON or cannot be
    opened, [load_embeddings] raises, and [semantic_search] (with the
    library and the key present) propagates that exception without
    rebuilding: the world, and so the cache file and the record of
    provider calls, is unchanged. *)
Theorem corrupt_cache_propagates (query : string) (top_k : Z) (w : World) :
  OPENAI_AVAILABLE w = true ->
  not_api_key (OPENAI_API_KEY w) = false ->
  EMBEDDINGS_FILE w = Garbage \/ EMBEDDINGS_FILE w = Unreadable ->
  exists e,
    load_embeddings w = (Raise e, w)
    /\ semantic_search query top_k w = (Raise e, w).
Proof.
  intros Ho Hk Hf.
  unfold semantic_search, bind, read, raise. cbv beta.
  rewrite Ho. cbn [negb]. cbv beta iota. rewrite Hk. cbv beta iota.
  unfold load_embeddings.
  destruct Hf as [Hf|Hf]; rewrite Hf; eexists; split; reflexivity.
Qed.

(** C3 (amended) at the example world with a cache file that is not JSON. *)
Lemma corrupt_cache_propagates_witness :
  OPENAI_AVAILABLE (with_file Garbage example_world) = true
  /\ not_api_key (OPENAI_API_KEY (with_file Garbage example_world)) = false
  /\ (EMBEDDINGS_FILE (with_file Garbage example_world) = Garbage
      \/ EMBEDDINGS_FILE (with_file Garbage example_world) = Unreadable)
  /\ exists e,
       load_embeddings (with_file Garbage example_world)
       = (Raise e, with_file Garbage example_world)
       /\ semantic_search "drop coverage" 5 (with_file Garbage example_world)
          = (Raise e, with_file Garbage example_world).
Proof.
  split; [reflexivity|]. split; [reflexivity|].
  split; [left; reflexivity|].
  apply (corrupt_cache_propagates "drop coverage" 5
           (with_file Garbage example_world));
    [reflexivity | reflexivity | left; reflexivity].
Defined.

(** ** Rebuilding the cache *)

Lemma with_file_twice (f g : CacheFile) (w : World) :
  with_file f (with_file g w) = with_file f w.
Proof. reflexivity. Qed.

(** Generation does not read or write the cache file. *)
Lemma generate_with_file (f : CacheFile) (w : World) :
  generate_embeddings_for_all_clips (with_file f w)
  = (fst (generate_embeddings_for_all_clips w),
     with_file f (snd (generate_embeddings_for_all_clips w))).
Proof.
  destruct w as [available key file clips create calls server].
  unfold generate_embeddings_for_all_clips, bind, read, raise, fetch_clips,
    lift, ret, client_embeddings_create, with_file, with_call.
  simpl.
  destruct available; simpl; [|reflexivity].
  destruct (not_api_key key); simpl; [reflexivity|].
  destruct clips as [clips|e]; simpl; [|reflexivity].
  destruct (prepare_batch clips) as [[texts ids]|e]; simpl; [|reflexivity].
  destruct texts as [|t texts]; simpl; [reflexivity|].
  destruct (create (t :: texts)) as [data|e]; reflexivity.
Qed.

Lemma generate_keeps_file (w : World) :
  EMBEDDINGS_FILE (snd (generate_embeddings_for_all_clips w))
  = EMBEDDINGS_FILE w.
Proof.
  destruct w as [available key file clips create calls server].
  unfold generate_embeddings_for_all_clips, bind, read, raise, fetch_clips,
    lift, ret, client_embeddings_create, with_call.
  simpl.
  destruct available; simpl; [|reflexivity].
  destruct (not_api_key key); simpl; [reflexivity|].
  destruct clips as [clips|e]; simpl; [|reflexivity].
  destruct (prepare_batch clips) as [[texts ids]|e]; simpl; [|reflexivity].
  destruct texts as [|t texts]; simpl; [reflexivity|].
  destruct (create (t :: texts)) as [data|e]; reflexivity.
Qed.

(** What generation does when the store or the provider fails. *)
Lemma generate_fails (w : World) (e : exn) :
  OPENAI_AVAILABLE w = true ->
  not_api_key (OPENAI_API_KEY w) = false ->
  (clips_table w = Raise e
   \/ exists clips texts ids,
        clips_table w = Ok clips
        /\ prepare_batch clips = Ok (texts, ids)
        /\ texts <> []
        /\ embeddings_create w texts = Raise e) ->
  fst (generate_embeddings_for_all_clips w) = Raise e.
Proof.
  destruct w as [available key file clips create calls server].
  simpl. intros Ho Hk Hfail. subst available.
  unfold generate_embeddings_for_all_clips, bind, read, raise, fetch_clips,
    lift, ret, client_embeddings_create, with_call.
  simpl. rewrite Hk. simpl.
  destruct Hfail as [Hc|(cl & texts & ids & Hc & Hb & Hne & Hp)];
    rewrite Hc; simpl; [reflexivity|].
  rewrite Hb. simpl.
  destruct texts as [|t texts]; [congruence|].
  simpl. rewrite Hp. reflexivity.
Qed.

(** C6: when the fetch of the clips or the call to the embedding provider
    fails during [rebuild_embeddings] (the library and the key being
    present), the operation reports [{success: False, error: str(e)}] and
    the cache file is what it was before: nothing is written. *)
Theorem failed_rebuild_keeps_cache (w : World) (e : exn) :
  OPENAI_AVAILABLE w = true ->
  not_api_key (OPENAI_API_KEY w) = false ->
  (clips_table w = Raise e
   \/ exists clips texts ids,
        clips_table w = Ok clips
        /\ prepare_batch clips = Ok (texts, ids)
        /\ texts <> []
        /\ embeddings_create w texts = Raise e) ->
  exists w',
    rebuild_embeddings w = (RebuildFailure (exn_str e), w')
    /\ EMBEDDINGS_FILE w' = EMBEDDINGS_FILE w.
Proof.
  intros Ho Hk Hfail.
  pose proof (generate_fails w e Ho Hk Hfail) as Hg.
  pose proof (generate_keeps_file w) as Hf.
  unfold rebuild_embeddings, bind.
  destruct (generate_embeddings_for_all_clips w) as [r w'].
  simpl in Hg, Hf. subst r.
  exists w'. split; [reflexivity | exact Hf].
Qed.

(** C6 at a world whose store is locked. *)
Lemma failed_rebuild_keeps_cache_witness :
  OPENAI_AVAILABLE locked_world = true
  /\ not_api_key (OPENAI_API_KEY locked_world) = false
  /\ clips_table locked_world = Raise (Exn OtherError "database is locked")
  /\ exists w',
       rebuild_embeddings locked_world
       = (RebuildFailure "database is locked", w')
       /\ EMBEDDINGS_FILE w' = EMBEDDINGS_FILE locked_world.
Proof.
  split; [reflexivity|]. split; [reflexivity|]. split; [reflexivity|].
  apply (failed_rebuild_keeps_cache locked_world
           (Exn OtherError "database is locked"));
    [reflexivity | reflexivity | left; reflexivity].
Defined.

(** ** The orchestrator, step by step *)

Lemma semantic_search_steps (query : string) (top_k : Z) (w : World) :
  OPENAI_AVAILABLE w = true ->
  not_api_key (OPENAI_API_KEY w) = false ->
  semantic_search query top_k w
  = (embeddings <- load_embeddings ;;
     embeddings <- ensure_cache embeddings ;;
     answer_from query top_k embeddings) w.
Proof.
  intros Ho Hk. unfold semantic_search.
  unfold bind at 1, read at 1. rewrite Ho. cbn [negb].
  unfold bind at 1, read at 1. rewrite Hk. reflexivity.
Qed.

Lemma answer_from_with_file (query : string) (top_k : Z) (l : loaded)
    (f : CacheFile) (w : World) :
  answer_from query top_k l (with_file f w)
  = (fst (answer_from query top_k l w),
     with_file f (snd (answer_from query top_k l w))).
Proof.
  destruct w as [available key file clips create calls server].
  unfold answer_from, bind, lift, ret, fetch_clips, client_embeddings_create,
    with_call, with_file.
  simpl.
  destruct (create [query]) as [[|qv data]|e]; simpl; try reflexivity.
  destruct (loaded_items l) as [items|e]; simpl; [|reflexivity].
  destruct (rank qv items top_k) as [top|e]; simpl; [|reflexivity].
  destruct clips as [clips|e]; simpl; [|reflexivity].
  destruct (clips_by_id_of clips) as [byid|e]; reflexivity.
Qed.

(** The run of [answer_from] when every step succeeds. *)
Lemma answer_from_run (query : string) (top_k : Z) (l : loaded) (w : World)
    (qv : vector) (rest : list vector) (items : list (pyval * vector))
    (top : list (pyval * float)) (clips : list Clip)
    (byid : Dict.t pyval Clip) :
  embeddings_create w [query] = Ok (qv :: rest) ->
  loaded_items l = Ok items ->
  rank qv items top_k = Ok top ->
  clips_table w = Ok clips ->
  clips_by_id_of clips = Ok byid ->
  answer_from query top_k l w
  = (Ok (join_results top byid), with_call [query] w).
Proof.
  intros Hq Hl Hr Hc Hb.
  unfold answer_from, bind, lift, ret, fetch_clips, client_embeddings_create.
  rewrite Hq, Hl, Hr. cbn [clips_table with_call]. now rewrite Hc, Hb.
Qed.

Lemma semantic_search_no_library (query : string) (top_k : Z) (w : World) :
  OPENAI_AVAILABLE w = false ->
  semantic_search query top_k w
  = (Raise (Exn ImportError "OpenAI library not available"), w).
Proof.
  intros Ho. unfold semantic_search.
  unfold bind at 1, read at 1. now rewrite Ho.
Qed.

Lemma semantic_search_no_key (query : string) (top_k : Z) (w : World) :
  OPENAI_AVAILABLE w = true ->
  not_api_key (OPENAI_API_KEY w) = true ->
  semantic_search query top_k w
  = (Raise (Exn ValueError "OPENAI_API_KEY environment variable not set"), w).
Proof.
  intros Ho Hk. unfold semantic_search.
  unfold bind at 1, read at 1. rewrite Ho. cbn [negb].
  unfold bind at 1, read at 1. now rewrite Hk.
Qed.

Lemma generate_needs_library_and_key (w : World) (g : Embeddings) :
  fst (generate_embeddings_for_all_clips w) = Ok g ->
  OPENAI_AVAILABLE w = true /\ not_api_key (OPENAI_API_KEY w) = false.
Proof.
  unfold generate_embeddings_for_all_clips.
  unfold bind at 1, read at 1.
  destruct (OPENAI_AVAILABLE w); cbn [negb]; [|discriminate].
  unfold bind at 1, read at 1.
  destruct (not_api_key (OPENAI_API_KEY w)); [discriminate | now split].
Qed.

Lemma bind_assoc {A B C : Type} (m : Py A) (f : A -> Py B) (g : B -> Py C)
    (w : World) :
  bind (bind m f) g w = bind m (fun x => bind (f x) g) w.
Proof. unfold bind. destruct (m w) as [[a|e] w']; reflexivity. Qed.

Lemma bind_ext {A B : Type} (m : Py A) (k1 k2 : A -> Py B) (w : World) :
  (forall a w', k1 a w' = k2 a w') -> bind m k1 w = bind m k2 w.
Proof. intros Hk. unfold bind. destruct (m w) as [[a|e] w']; auto. Qed.

Lemma bind_ok {A B : Type} (m : Py A) (k : A -> Py B) (w w' : World) (a : A) :
  m w = (Ok a, w') -> bind m k w = k a w'.
Proof. intros Hm. unfold bind. now rewrite Hm. Qed.

Lemma bind_raise {A B : Type} (m : Py A) (k : A -> Py B) (w w' : World)
    (e : exn) :
  m w = (Raise e, w') -> bind m k w = (Raise e, w').
Proof. intros Hm. unfold bind. now rewrite Hm. Qed.

Lemma with_file_same (w : World) : with_file (EMBEDDINGS_FILE w) w = w.
Proof. destruct w; reflexivity. Qed.

(** A search whose loaded cache is missing or falsy rebuilds. *)
Lemma semantic_search_rebuilds (query : string) (top_k : Z) (w : World)
    (embeddings : option loaded) :
  OPENAI_AVAILABLE w = true ->
  not_api_key (OPENAI_API_KEY w) = false ->
  load_embeddings w = (Ok embeddings, w) ->
  not_embeddings embeddings = true ->
  semantic_search query top_k w = rebuild_then_answer query top_k w.
Proof.
  intros Ho Hk Hload Hnot.
  rewrite (semantic_search_steps query top_k w Ho Hk).
  rewrite (bind_ok _ _ _ _ _ Hload).
  unfold ensure_cache. rewrite Hnot.
  rewrite bind_assoc. unfold rebuild_then_answer.
  apply bind_ext. intros g wg.
  rewrite bind_assoc. apply bind_ext. intros u ws. reflexivity.
Qed.

(** The rebuild does not depend on the cache file it replaces. *)
Lemma rebuild_then_answer_file (query : string) (top_k : Z) (f : CacheFile)
    (w : World) :
  f <> Unreadable ->
  rebuild_then_answer query top_k (with_file f w)
  = match generate_embeddings_for_all_clips w with
    | (Ok g, wg) =>
        answer_from query top_k (LoadedDict g)
          (with_file (JsonText (json_dump g)) wg)
    | (Raise e, wg) => (Raise e, with_file f wg)
    end.
Proof.
  intros Hf. unfold rebuild_then_answer.
  pose proof (generate_with_file f w) as Hgen.
  destruct (generate_embeddings_for_all_clips w) as [[g|e] wg];
    cbn [fst snd] in Hgen.
  - rewrite (bind_ok _ _ _ _ _ Hgen).
    assert (Hsave : save_embeddings g (with_file f wg)
                    = (Ok tt, with_file (JsonText (json_dump g)) wg)).
    { unfold save_embeddings. cbn [EMBEDDINGS_FILE with_file].
      destruct f; try congruence; reflexivity. }
    now rewrite (bind_ok _ _ _ _ _ Hsave).
  - now rewrite (bind_raise _ _ _ _ _ Hgen).
Qed.

Lemma answer_from_keeps_file (query : string) (top_k : Z) (l : loaded)
    (w : World) :
  EMBEDDINGS_FILE (snd (answer_from query top_k l w)) = EMBEDDINGS_FILE w.
Proof.
  rewrite <- (with_file_same w) at 1.
  rewrite answer_from_with_file. cbn [snd].
  destruct (snd (answer_from query top_k l w)); reflexivity.
Qed.

Lemma generate_no_library (w : World) :
  OPENAI_AVAILABLE w = false ->
  generate_embeddings_for_all_clips w
  = (Raise (Exn ImportError "OpenAI library not available"), w).
Proof.
  intros Ho. unfold generate_embeddings_for_all_clips.
  unfold bind at 1, read at 1. now rewrite Ho.
Qed.

Lemma generate_no_key (w : World) :
  OPENAI_AVAILABLE w = true ->
  not_api_key (OPENAI_API_KEY w) = true ->
  generate_embeddings_for_all_clips w
  = (Raise (Exn ValueError "OPENAI_API_KEY environment variable not set"), w).
Proof.
  intros Ho Hk. unfold generate_embeddings_for_all_clips.
  unfold bind at 1, read at 1. rewrite Ho. cbn [negb].
  unfold bind at 1, read at 1. now rewrite Hk.
Qed.

(** A search that finds no cache, or an empty one, is the rebuild followed
    by the answer, also when the library or the key is missing: the two
    guards of [generate_embeddings_for_all_clips] repeat those of
    [semantic_search]. *)
Lemma semantic_search_without_cache (query : string) (top_k : Z) (w : World)
    (embeddings : option loaded) :
  load_embeddings w = (Ok embeddings, w) ->
  not_embeddings embeddings = true ->
  semantic_search query top_k w = rebuild_then_answer query top_k w.
Proof.
  intros Hload Hnot.
  destruct (OPENAI_AVAILABLE w) eqn:Ho.
  2:{ rewrite (semantic_search_no_library query top_k w Ho).
      unfold rebuild_then_answer.
      now rewrite (bind_raise _ _ _ _ _ (generate_no_library w Ho)). }
  destruct (not_api_key (OPENAI_API_KEY w)) eqn:Hk.
  { rewrite (semantic_search_no_key query top_k w Ho Hk).
    unfold rebuild_then_answer.
    now rewrite (bind_raise _ _ _ _ _ (generate_no_key w Ho Hk)). }
  now apply semantic_search_rebuilds with embeddings.
Qed.

(** C10: a cache file that holds the empty mapping [{}] is treated by
    [semantic_search] exactly like a missing file.  Over either file the
    search is the rebuild followed by the answer: the embeddings are
    generated, saved, and the query is ranked against the generated
    mapping.  So the result (or the exception) and the provider calls are
    those of the search over the missing file, and whenever the generation
    succeeds the search is the answer computed from the generated mapping
    in the world where that mapping has been saved; the two searches then
    end in the same world, whose cache file is the generated mapping. *)
Theorem empty_cache_like_absent (query : string) (top_k : Z) (w : World) :
  EMBEDDINGS_FILE w = JsonText (JObj []) ->
  semantic_search query top_k w = rebuild_then_answer query top_k w
  /\ semantic_search query top_k (with_file Absent w)
     = rebuild_then_answer query top_k (with_file Absent w)
  /\ fst (semantic_search query top_k w)
     = fst (semantic_search query top_k (with_file Absent w))
  /\ provider_calls (snd (semantic_search query top_k w))
     = provider_calls (snd (semantic_search query top_k (with_file Absent w)))
  /\ (forall generated,
         fst (generate_embeddings_for_all_clips w) = Ok generated ->
         semantic_search query top_k w
         = answer_from query top_k (LoadedDict generated)
             (with_file (JsonText (json_dump generated))
                (snd (generate_embeddings_for_all_clips w)))
         /\ snd (semantic_search query top_k w)
            = snd (semantic_search query top_k (with_file Absent w))
         /\ EMBEDDINGS_FILE (snd (semantic_search query top_k w))
            = JsonText (json_dump generated)).
Proof.
  intros Hfile.
  assert (S1 : semantic_search query top_k w
               = rebuild_then_answer query top_k w).
  { apply semantic_search_without_cache with (Some (LoadedDict []));
      [|reflexivity].
    unfold load_embeddings. now rewrite Hfile. }
  assert (S0 : semantic_search query top_k (with_file Absent w)
               = rebuild_then_answer query top_k (with_file Absent w)).
  { now apply semantic_search_without_cache with None. }
  split; [exact S1|]. split; [exact S0|].
  assert (R1 : rebuild_then_answer query top_k w
               = match generate_embeddings_for_all_clips w with
                 | (Ok g, wg) =>
                     answer_from query top_k (LoadedDict g)
                       (with_file (JsonText (json_dump g)) wg)
                 | (Raise e, wg) => (Raise e, with_file (EMBEDDINGS_FILE w) wg)
                 end).
  { rewrite <- (with_file_same w) at 1.
    apply rebuild_then_answer_file. rewrite Hfile. discriminate. }
  pose proof (rebuild_then_answer_file query top_k Absent w) as R0.
  rewrite S1, S0, R1, R0 by discriminate.
  destruct (generate_embeddings_for_all_clips w) as [[g|e] wg]; cbn [fst snd].
  - split; [reflexivity|]. split; [reflexivity|].
    intros generated [= <-].
    split; [reflexivity|]. split; [reflexivity|].
    now rewrite answer_from_keeps_file.
  - split; [reflexivity|]. split; [reflexivity|].
    intros generated Hg. discriminate.
Qed.

(** C10 at the example world with the cache file [{}]: the search
    regenerates the mapping and answers from it. *)
Lemma empty_cache_like_absent_witness :
  EMBEDDINGS_FILE empty_cache_world = JsonText (JObj [])
  /\ fst (generate_embeddings_for_all_clips empty_cache_world)
     = Ok [(VStr "c1", [1; 0]%float)]
  /\ fst (semantic_search "drop coverage" 5 empty_cache_world)
     = Ok [mkRanked example_clip 1%float]
  /\ semantic_search "drop coverage" 5 empty_cache_world
     = rebuild_then_answer "drop coverage" 5 empty_cache_world
  /\ semantic_search "drop coverage" 5 (with_file Absent empty_cache_world)
     = rebuild_then_answer "drop coverage" 5
         (with_file Absent empty_cache_world)
  /\ fst (semantic_search "drop coverage" 5 empty_cache_world)
     = fst (semantic_search "drop coverage" 5
              (with_file Absent empty_cache_world))
  /\ provider_calls (snd (semantic_search "drop coverage" 5 empty_cache_world))
     = provider_calls
         (snd (semantic_search "drop coverage" 5
                 (with_file Absent empty_cache_world)))
  /\ (forall generated,
         fst (generate_embeddings_for_all_clips empty_cache_world)
         = Ok generated ->
         semantic_search "drop coverage" 5 empty_cache_world
         = answer_from "drop coverage" 5 (LoadedDict generated)
             (with_file (JsonText (json_dump generated))
                (snd (generate_embeddings_for_all_clips empty_cache_world)))
         /\ snd (semantic_search "drop coverage" 5 empty_cache_world)
            = snd (semantic_search "drop coverage" 5
                     (with_file Absent empty_cache_world))
         /\ EMBEDDINGS_FILE
              (snd (semantic_search "drop coverage" 5 empty_cache_world))
            = JsonText (json_dump generated)).
Proof.
  split; [reflexivity|]. split; [reflexivity|]. split; [reflexivity|].
  apply (empty_cache_like_absent "drop coverage" 5 empty_cache_world).
  reflexivity.
Defined.

(** ** Joining the ranking with the store *)

Lemma id_pairs_spec (clips : list Clip) (pairs : list (pyval * Clip)) :
  id_pairs clips = Ok pairs ->
  Forall2 (fun clip p => snd p = clip /\ clip_getitem clip "id" = Ok (fst p))
    clips pairs.
Proof.
  revert pairs. induction clips as [|clip clips IH]; intros pairs H; simpl in H.
  - injection H as <-. constructor.
  - destruct (clip_getitem clip "id") as [i|e] eqn:Ei; simpl in H;
      [|discriminate].
    destruct (id_pairs clips) as [rest|e] eqn:Er; simpl in H; [|discriminate].
    injection H as <-. constructor; [now split | now apply IH].
Qed.

Lemma id_pairs_In (clips : list Clip) (pairs : list (pyval * Clip))
    (i : pyval) (clip : Clip) :
  id_pairs clips = Ok pairs -> In (i, clip) pairs ->
  In clip clips /\ clip_getitem clip "id" = Ok i.
Proof.
  intros H. apply id_pairs_spec in H.
  induction H as [|c p clips pairs [Hc Hi] Hrest IH]; simpl; [tauto|].
  intros [E|Hin].
  - subst p. simpl in *. subst c. now split; [left|].
  - destruct (IH Hin). now split; [right|].
Qed.

Lemma store_has_iff (clips : list Clip) (pairs : list (pyval * Clip))
    (i : pyval) :
  id_pairs clips = Ok pairs ->
  store_has clips i = true <-> In i (map fst pairs).
Proof.
  intros H. apply id_pairs_spec in H. unfold store_has.
  induction H as [|c p clips pairs [Hc Hi] Hrest IH]; simpl.
  - split; [discriminate | tauto].
  - rewrite Hi, orb_true_iff, IH, py_eqb_eq. tauto.
Qed.

Lemma fold_set_keys_In {K V : Type} `{PyEqOk K} (pairs d : list (K * V))
    (k : K) :
  In k (Dict.keys
          (fold_left (fun d kv => Dict.set (fst kv) (snd kv) d) pairs d))
  <-> In k (Dict.keys d) \/ In k (map fst pairs).
Proof.
  revert d. induction pairs as [|[k' v'] pairs IH]; intros d; simpl.
  - tauto.
  - rewrite IH, set_keys_In. simpl. intuition congruence.
Qed.

Lemma of_pairs_keys_In {K V : Type} `{PyEqOk K} (pairs : list (K * V))
    (k : K) :
  In k (Dict.keys (Dict.of_pairs pairs)) <-> In k (map fst pairs).
Proof.
  unfold Dict.of_pairs. rewrite fold_set_keys_In. simpl. tauto.
Qed.

(** The join keeps, in order, exactly the ranked entries whose identifier
    the store has, each with the store's record. *)
Lemma join_results_spec (top : list (pyval * float)) (clips : list Clip)
    (pairs : list (pyval * Clip)) :
  id_pairs clips = Ok pairs ->
  map (fun r => (clip_getitem (clip_data r) "id", similarity_score r))
    (join_results top (Dict.of_pairs pairs))
  = map (fun p => (Ok (fst p), snd p))
      (filter (fun p => store_has clips (fst p)) top)
  /\ Forall (fun r => In (clip_data r) clips)
       (join_results top (Dict.of_pairs pairs)).
Proof.
  intros Hp. induction top as [|[i s] top [IHm IHf]]; simpl.
  - split; [reflexivity | constructor].
  - destruct (Dict.lookup i (Dict.of_pairs pairs)) as [clip|] eqn:El.
    + apply lookup_In, of_pairs_In in El.
      destruct (id_pairs_In _ _ _ _ Hp El) as [Hin Hid].
      assert (Hs : store_has clips i = true).
      { apply (store_has_iff _ _ _ Hp). now apply (in_map fst) in El. }
      rewrite Hs. simpl. rewrite Hid, IHm.
      split; [reflexivity | now constructor].
    + apply lookup_None in El. rewrite of_pairs_keys_In in El.
      assert (Hs : store_has clips i = false).
      { apply not_true_is_false. now rewrite (store_has_iff _ _ _ Hp). }
      rewrite Hs. now split.
Qed.

(** C8: when the search gets as far as the join (the cache is loaded, the
    query is embedded, the ranking is computed and the store is read), it
    returns without raising, whatever identifiers the ranking holds: the
    results are, in rank order, exactly the ranked entries whose identifier
    belongs to a record of the store, each carrying that record and the
    entry's score; an identifier the store does not have gives no result,
    and every result is a record of the store at query time. *)
Theorem search_omits_orphans (query : string) (top_k : Z) (w : World)
    (j : json) (cache : Embeddings) (qv : vector) (rest : list vector)
    (top : list (pyval * float)) (clips : list Clip)
    (pairs : list (pyval * Clip)) :
  OPENAI_AVAILABLE w = true ->
  not_api_key (OPENAI_API_KEY w) = false ->
  EMBEDDINGS_FILE w = JsonText j ->
  json_load j = LoadedDict cache ->
  cache <> [] ->
  embeddings_create w [query] = Ok (qv :: rest) ->
  rank qv cache top_k = Ok top ->
  clips_table w = Ok clips ->
  id_pairs clips = Ok pairs ->
  exists results,
    semantic_search query top_k w = (Ok results, with_call [query] w)
    /\ map (fun r => (clip_getitem (clip_data r) "id", similarity_score r))
         results
       = map (fun p => (Ok (fst p), snd p))
           (filter (fun p => store_has clips (fst p)) top)
    /\ Forall (fun r => In (clip_data r) clips) results.
Proof.
  intros Ho Hk Hfile Hload Hne Hq Hrank Hclips Hpairs.
  exists (join_results top (Dict.of_pairs pairs)).
  split; [|now apply join_results_spec].
  rewrite (semantic_search_steps query top_k w Ho Hk).
  assert (Hl : load_embeddings w = (Ok (Some (LoadedDict cache)), w)).
  { unfold load_embeddings. now rewrite Hfile, Hload. }
  rewrite (bind_ok _ _ _ _ _ Hl).
  assert (He : ensure_cache (Some (LoadedDict cache)) w
               = (Ok (LoadedDict cache), w)).
  { unfold ensure_cache. destruct cache; [congruence | reflexivity]. }
  rewrite (bind_ok _ _ _ _ _ He).
  apply answer_from_run with qv rest (Dict.items cache) clips; trivial.
  unfold clips_by_id_of. now rewrite Hpairs.
Qed.

(** C8 at the example world, whose cache holds the identifier ["gone"]
    that the store does not have. *)
Lemma search_omits_orphans_witness :
  OPENAI_AVAILABLE example_world = true
  /\ not_api_key (OPENAI_API_KEY example_world) = false
  /\ EMBEDDINGS_FILE example_world = JsonText (json_dump example_cache)
  /\ json_load (json_dump example_cache) = LoadedDict example_cache
  /\ example_cache <> []
  /\ embeddings_create example_world ["made shots against Duke"]
     = Ok ([1; 0]%float :: [])
  /\ rank [1; 0]%float example_cache 5
     = Ok [(VStr "c1", 1%float); (VStr "gone", (3 / 5)%float)]
  /\ clips_table example_world = Ok [example_clip]
  /\ id_pairs [example_clip] = Ok [(VStr "c1", example_clip)]
  /\ exists results,
       semantic_search "made shots against Duke" 5 example_world
       = (Ok results, with_call ["made shots against Duke"] example_world)
       /\ map (fun r => (clip_getitem (clip_data r) "id", similarity_score r))
            results
          = map (fun p => (Ok (fst p), snd p))
              (filter (fun p => store_has [example_clip] (fst p))
                 [(VStr "c1", 1%float); (VStr "gone", (3 / 5)%float)])
       /\ Forall (fun r => In (clip_data r) [example_clip]) results.
Proof.
  assert (Hne : example_cache <> []) by discriminate.
  repeat (split; [first [reflexivity | exact Hne]|]).
  apply (search_omits_orphans "made shots against Duke" 5 example_world
           (json_dump example_cache) example_cache [1; 0]%float []
           [(VStr "c1", 1%float); (VStr "gone", (3 / 5)%float)]
           [example_clip] [(VStr "c1", example_clip)]);
    first [reflexivity | exact Hne].
Defined.

(** * Further properties of the code *)

(** ** The text projector: which fields matter *)

(** The keys that [get_clip_text_representation] reads. *)
Definition projected_keys : list string :=
  flat_map (fun r => match row_source r with
                     | Field k => [k]
                     | Alias a b => [a; b]
                     end) projected_fields.

Lemma flat_map_same {A B : Type} (f g : A -> list B) (l : list A) :
  (forall a, In a l -> f a = g a) -> flat_map f l = flat_map g l.
Proof.
  induction l as [|a l IH]; intros H; simpl; [reflexivity|].
  rewrite (H a) by now left. rewrite IH; [reflexivity|].
  intros b Hb. apply H. now right.
Qed.

(** Two clips whose rows have values that the projector cannot tell apart
    have the same projection. *)
Lemma projection_same_values (c1 c2 : Clip) :
  (forall r, In r projected_fields ->
             same_segment (field_value c1 (row_source r))
                          (field_value c2 (row_source r))) ->
  get_clip_text_representation c1 = get_clip_text_representation c2.
Proof.
  intros H. rewrite !projection_segments. f_equal.
  apply flat_map_same. intros r Hr. unfold segment.
  destruct (H r Hr) as [[H1 H2]|Heq].
  - now rewrite H1, H2.
  - now rewrite Heq.
Qed.

Lemma row_keys_projected (r : field_row) :
  In r projected_fields ->
  match row_source r with
  | Field k => In k projected_keys
  | Alias a b => In a projected_keys /\ In b projected_keys
  end.
Proof.
  intros Hr. unfold projected_keys.
  destruct (row_source r) as [k|a b] eqn:E.
  - apply in_flat_map. exists r. split; [exact Hr|]. rewrite E. now left.
  - split; apply in_flat_map; exists r; (split; [exact Hr|]); rewrite E;
      simpl; tauto.
Qed.

(** X9: a key that the projector does not read ([id], [filename],
    [similarity_score], ...) has no influence on the projected text:
    setting it to any value leaves the projection as it was. *)
Theorem unread_key_keeps_projection (clip : Clip) (k : string) (v : pyval) :
  ~ In k projected_keys ->
  get_clip_text_representation (Dict.set k v clip)
  = get_clip_text_representation clip.
Proof.
  intros Hk. apply projection_same_values. intros r Hr. right.
  pose proof (row_keys_projected r Hr) as Hkeys.
  assert (Hget : forall k', In k' projected_keys ->
                   clip_get (Dict.set k v clip) k' = clip_get clip k').
  { intros k' Hk'. rewrite clip_get_set.
    destruct (String.eqb_spec k' k) as [->|]; [contradiction | reflexivity]. }
  destruct (row_source r) as [k0|a b]; simpl.
  - now apply Hget.
  - destruct Hkeys as [Ha Hb]. now rewrite !Hget.
Qed.

(** X9 at the key [id]. *)
Lemma unread_key_keeps_projection_witness :
  ~ In "id" projected_keys
  /\ get_clip_text_representation
       (Dict.set "id" (VStr "c2") [("id", VStr "c1"); ("opponent", VStr "Duke")])
     = get_clip_text_representation
         [("id", VStr "c1"); ("opponent", VStr "Duke")].
Proof.
  assert (H : ~ In "id" projected_keys).
  { unfold projected_keys. simpl. intuition discriminate. }
  split; [exact H|].
  exact (unread_key_keeps_projection
           [("id", VStr "c1"); ("opponent", VStr "Duke")] "id" (VStr "c2") H).
Defined.

(** X11: the legacy field [action_trigger] is read only as a fallback:
    while [play_trigger] holds a truthy value, whatever is stored under
    [action_trigger] does not change the projection. *)
Theorem primary_trigger_wins (clip : Clip) (v : pyval) :
  truthy (clip_get clip "play_trigger") = true ->
  get_clip_text_representation (Dict.set "action_trigger" v clip)
  = get_clip_text_representation clip.
Proof.
  intros Hp. apply projection_same_values. intros r Hr. right.
  unfold projected_fields in Hr. simpl in Hr.
  repeat (destruct Hr as [<-|Hr];
          [simpl; rewrite ?clip_get_set; simpl; try reflexivity|]);
    [|contradiction].
  unfold py_or. now rewrite Hp.
Qed.

(** X11 at a clip that has both triggers. *)
Lemma primary_trigger_wins_witness :
  truthy (clip_get [("play_trigger", VStr "Horns")] "play_trigger") = true
  /\ get_clip_text_representation
       (Dict.set "action_trigger" (VStr "Floppy") [("play_trigger", VStr "Horns")])
     = get_clip_text_representation [("play_trigger", VStr "Horns")].
Proof.
  split; [reflexivity|].
  apply (primary_trigger_wins [("play_trigger", VStr "Horns")] (VStr "Floppy")).
  reflexivity.
Defined.

Lemma string_app_empty (a b : string) : (a ++ b)%string = "" -> a = "".
Proof. destruct a; simpl; [reflexivity | discriminate]. Qed.

Lemma concat_empty_head (sep x : string) (l : list string) :
  String.concat sep (x :: l) = "" -> x = "".
Proof.
  destruct l as [|y l]; simpl; [tauto|]. apply string_app_empty.
Qed.

(** Every segment holds some text of its row besides the value. *)
Lemma row_text_nonempty (r : field_row) (s : string) :
  In r projected_fields -> (row_before r ++ s ++ row_after r)%string <> "".
Proof.
  intros Hr. unfold projected_fields in Hr. simpl in Hr.
  repeat (destruct Hr as [<-|Hr]; [simpl; try discriminate|]);
    [|contradiction].
  destruct s; discriminate.
Qed.

Lemma flat_map_nil {A B : Type} (f : A -> list B) (l : list A) :
  flat_map f l = [] <-> Forall (fun a => f a = []) l.
Proof.
  induction l as [|a l IH]; simpl.
  - split; [constructor | reflexivity].
  - split.
    + intros H. apply app_eq_nil in H. destruct H as [Ha Hl].
      constructor; [exact Ha | now apply IH].
    + intros H. inversion H as [|? ? Ha Hl]; subst.
      rewrite Ha. now apply IH.
Qed.

(** X10: the projected text is empty exactly when no row of the table has
    a truthy value; a clip without scouting data is embedded as the empty
    string. *)
Theorem projection_empty_iff (clip : Clip) :
  get_clip_text_representation clip = ""
  <-> Forall (fun r => truthy (field_value clip (row_source r)) = false)
        projected_fields.
Proof.
  rewrite projection_segments. unfold py_join. split.
  - intros Hempty. apply Forall_forall. intros r Hr.
    destruct (truthy (field_value clip (row_source r))) eqn:Ht;
      [exfalso | reflexivity].
    destruct (flat_map (segment clip) projected_fields) as [|x l] eqn:Ef.
    + apply flat_map_nil in Ef. rewrite Forall_forall in Ef.
      specialize (Ef r Hr). unfold segment in Ef. rewrite Ht in Ef.
      discriminate.
    + apply concat_empty_head in Hempty. subst x.
      assert (Hin : In "" (flat_map (segment clip) projected_fields))
        by (rewrite Ef; now left).
      apply in_flat_map in Hin. destruct Hin as (r' & Hr' & Hs).
      unfold segment in Hs.
      destruct (truthy (field_value clip (row_source r'))); [|contradiction].
      destruct Hs as [Hs|[]].
      now apply (row_text_nonempty r' _ Hr') in Hs.
  - intros Hall.
    assert (Hnil : flat_map (segment clip) projected_fields = []).
    { apply flat_map_nil. apply Forall_forall. intros r Hr.
      rewrite Forall_forall in Hall. unfold segment.
      now rewrite (Hall r Hr). }
    now rewrite Hnil.
Qed.

(** ** Cosine similarity and ranking: symmetry, shapes, negative [top_k] *)

Lemma SFmul_comm (x y : spec_float) : SF64mul x y = SF64mul y x.
Proof.
  destruct x as [sx|sx| |sx mx ex], y as [sy|sy| |sy my ey]; simpl;
    try reflexivity; try (now rewrite xorb_comm).
  now rewrite xorb_comm, Pos.mul_comm, Z.add_comm.
Qed.

Lemma float_mul_comm (x y : float) : (x * y)%float = (y * x)%float.
Proof.
  rewrite <- (SF2Prim_Prim2SF (x * y)), <- (SF2Prim_Prim2SF (y * x)).
  now rewrite !mul_spec, SFmul_comm.
Qed.

Lemma dot_fold_comm (a b : vector) (acc : float) :
  fold_left (fun acc xy => (acc + fst xy * snd xy)%float) (combine a b) acc
  = fold_left (fun acc xy => (acc + fst xy * snd xy)%float) (combine b a) acc.
Proof.
  revert b acc. induction a as [|x a IH]; intros [|y b] acc; simpl;
    try reflexivity.
  rewrite (float_mul_comm x y). apply IH.
Qed.

(** X6: the score is symmetric: for vectors of the same length
    [cosine_similarity(a, b)] and [cosine_similarity(b, a)] return the same
    float; for vectors of different lengths both calls raise a
    [ValueError] (the two texts name the shapes in the order of the
    arguments, and so differ). *)
Theorem cosine_similarity_symmetric (a b : vector) :
  (List.length a = List.length b ->
   exists s, cosine_similarity a b = Ok s /\ cosine_similarity b a = Ok s)
  /\ (List.length a <> List.length b ->
      exists e1 e2,
        cosine_similarity a b = Raise e1
        /\ cosine_similarity b a = Raise e2
        /\ exn_class e1 = ValueError
        /\ exn_class e2 = ValueError).
Proof.
  unfold cosine_similarity, np_dot.
  rewrite (Nat.eqb_sym (List.length b) (List.length a)).
  split; intros H.
  - rewrite H, Nat.eqb_refl. simpl. eexists. split; [reflexivity|].
    rewrite dot_fold_comm.
    now rewrite (float_mul_comm (np_linalg_norm a) (np_linalg_norm b)).
  - apply Nat.eqb_neq in H. rewrite H. simpl.
    do 2 eexists. repeat split; reflexivity.
Qed.

(** X6 at two vectors of two components, and at vectors of two and of
    three. *)
Lemma cosine_similarity_symmetric_witness :
  (List.length [1; 0]%float = List.length [3; 4]%float
   /\ exists s,
        cosine_similarity [1; 0]%float [3; 4]%float = Ok s
        /\ cosine_similarity [3; 4]%float [1; 0]%float = Ok s)
  /\ (List.length [1; 0]%float <> List.length [1; 0; 0]%float
      /\ exists e1 e2,
           cosine_similarity [1; 0]%float [1; 0; 0]%float = Raise e1
           /\ cosine_similarity [1; 0; 0]%float [1; 0]%float = Raise e2
           /\ exn_class e1 = ValueError
           /\ exn_class e2 = ValueError).
Proof.
  split.
  - split; [reflexivity|].
    exact (proj1 (cosine_similarity_symmetric [1; 0]%float [3; 4]%float)
             eq_refl).
  - assert (H : List.length [1; 0]%float <> List.length [1; 0; 0]%float)
      by (simpl; lia).
    split; [exact H|].
    exact (proj2 (cosine_similarity_symmetric [1; 0]%float [1; 0; 0]%float)
             H).
Defined.

Lemma cosine_similarity_shapes (q v : vector) :
  List.length q <> List.length v ->
  cosine_similarity q v
  = Raise (Exn ValueError
             (shapes_not_aligned (List.length q) (List.length v))).
Proof.
  intros H. unfold cosine_similarity, np_dot.
  apply Nat.eqb_neq in H. now rewrite H.
Qed.

Lemma calculate_similarities_shapes (q : vector)
    (items : list (pyval * vector)) :
  Exists (fun kv => List.length q <> List.length (snd kv)) items ->
  exists e,
    calculate_similarities q items = Raise e /\ exn_class e = ValueError.
Proof.
  induction items as [|[k v] items IH]; intros H; [inversion H|].
  simpl. destruct (Nat.eq_dec (List.length q) (List.length v)) as [E|E].
  - unfold cosine_similarity at 1. rewrite (np_dot_same_length _ _ E).
    simpl.
    assert (Ht : Exists (fun kv => List.length q <> List.length (snd kv))
                   items).
    { inversion H as [? ? Hh|? ? Ht]; subst;
        [simpl in Hh; contradiction | exact Ht]. }
    destruct (IH Ht) as (e & He & Hc). rewrite He. simpl. eauto.
  - rewrite (cosine_similarity_shapes _ _ E). simpl. eauto.
Qed.

(** X7: the ranking succeeds whenever every cached vector has the length
    of the query vector; one vector of another length (a cache built with
    another embedding model) makes it raise a [ValueError] for every
    [top_k]. *)
Theorem rank_needs_equal_shapes (q : vector) (corpus : Embeddings)
    (top_k : Z) :
  (Forall (fun kv => List.length q = List.length (snd kv)) corpus ->
   exists ranked, rank q corpus top_k = Ok ranked)
  /\ (Exists (fun kv => List.length q <> List.length (snd kv)) corpus ->
      exists e,
        rank q corpus top_k = Raise e /\ exn_class e = ValueError).
Proof.
  split; intros H; unfold rank, Dict.items.
  - destruct (calculate_similarities_total q corpus H) as [sims Hs].
    rewrite Hs. simpl. eauto.
  - destruct (calculate_similarities_shapes q corpus H) as (e & He & Hc).
    rewrite He. simpl. eauto.
Qed.

(** X8: a negative [top_k] is not rejected: the slice [[:top_k]] then drops
    the last [-top_k] entries of the full ranking, so [top_k = -1] returns
    everything but the least similar entry. *)
Theorem rank_negative_top_k (q : vector) (corpus : Embeddings) (top_k : Z)
    (sims : list (pyval * float)) :
  (top_k < 0)%Z ->
  calculate_similarities q (Dict.items corpus) = Ok sims ->
  exists full,
    rank q corpus (Z.of_nat (List.length corpus)) = Ok full
    /\ List.length full = List.length corpus
    /\ rank q corpus top_k
       = Ok (firstn (List.length corpus - Z.to_nat (- top_k)) full).
Proof.
  intros Hk Hs.
  assert (Hlen : List.length (list_sort_reverse snd sims) = List.length corpus).
  { rewrite list_sort_reverse_fold, (Permutation_length (sort_perm snd sims)).
    symmetry. exact (Forall2_length (calculate_similarities_spec _ _ _ Hs)). }
  exists (list_sort_reverse snd sims). unfold rank. rewrite Hs. simpl.
  repeat split.
  - rewrite slice_to_firstn by lia. rewrite Nat2Z.id, <- Hlen.
    now rewrite firstn_all.
  - exact Hlen.
  - unfold slice_to. destruct (Z.leb_spec 0 top_k); [lia|].
    now rewrite Hlen.
Qed.

(** X8 at a corpus of three and [top_k = -1]. *)
Lemma rank_negative_top_k_witness :
  (-1 < 0)%Z
  /\ calculate_similarities [1; 0]%float
       (Dict.items [(VStr "a", [3; 4]%float); (VStr "b", [1; 0]%float);
                    (VStr "c", [0; 1]%float)])
     = Ok [(VStr "a", (3 / 5)%float); (VStr "b", 1%float);
           (VStr "c", 0%float)]
  /\ exists full,
       rank [1; 0]%float
         [(VStr "a", [3; 4]%float); (VStr "b", [1; 0]%float);
          (VStr "c", [0; 1]%float)] (Z.of_nat 3)
       = Ok full
       /\ List.length full = 3
       /\ rank [1; 0]%float
            [(VStr "a", [3; 4]%float); (VStr "b", [1; 0]%float);
             (VStr "c", [0; 1]%float)] (-1)
          = Ok (firstn (3 - Z.to_nat (- -1)) full).
Proof.
  assert (H0 : (-1 < 0)%Z) by lia.
  assert (H1 : calculate_similarities [1; 0]%float
       (Dict.items [(VStr "a", [3; 4]%float); (VStr "b", [1; 0]%float);
                    (VStr "c", [0; 1]%float)])
     = Ok [(VStr "a", (3 / 5)%float); (VStr "b", 1%float);
           (VStr "c", 0%float)]) by reflexivity.
  split; [exact H0|]. split; [exact H1|].
  exact (rank_negative_top_k _ _ _ _ H0 H1).
Defined.

(** ** Generation of the cache *)

Lemma prepare_batch_spec (clips : list Clip) (texts : list string)
    (ids : list pyval) :
  prepare_batch clips = Ok (texts, ids) ->
  texts = map get_clip_text_representation clips
  /\ Forall2 (fun clip i => clip_getitem clip "id" = Ok i) clips ids.
Proof.
  revert texts ids.
  induction clips as [|clip clips IH]; intros texts ids H; simpl in H.
  - injection H as <- <-. split; [reflexivity | constructor].
  - destruct (clip_getitem clip "id") as [i|e] eqn:Ei; simpl in H;
      [|discriminate].
    destruct (prepare_batch clips) as [[ts rest]|e]; simpl in H; [|discriminate].
    injection H as <- <-. destruct (IH ts rest eq_refl) as [-> Hids].
    split; [reflexivity | now constructor].
Qed.

(** The run of the generation once the store has answered. *)
Lemma generate_run (w : World) (clips : list Clip) (texts : list string)
    (ids : list pyval) :
  OPENAI_AVAILABLE w = true ->
  not_api_key (OPENAI_API_KEY w) = false ->
  clips_table w = Ok clips ->
  prepare_batch clips = Ok (texts, ids) ->
  generate_embeddings_for_all_clips w
  = match texts with
    | [] => (Ok [], w)
    | _ :: _ =>
        (result_bind (embeddings_create w texts)
           (fun data => collect_embeddings ids data 0 []),
         with_call texts w)
    end.
Proof.
  destruct w as [available key file table create calls server].
  simpl. intros -> Hk -> Hb.
  unfold generate_embeddings_for_all_clips, bind, read, raise, fetch_clips,
    lift, ret, client_embeddings_create, with_call.
  simpl. rewrite Hk. simpl. rewrite Hb. simpl.
  destruct texts as [|t texts]; [reflexivity|].
  simpl. destruct (create (t :: texts)); reflexivity.
Qed.

(** The loop of lines 135-137, when the identifiers are distinct: the
    vectors are paired with the identifiers position by position. *)
Lemma collect_embeddings_fresh (pre post : list pyval) (data : list vector)
    (acc : Embeddings) :
  NoDup (pre ++ post) ->
  Dict.keys acc = pre ->
  (List.length data <= List.length post)%nat ->
  collect_embeddings (pre ++ post) data (List.length pre) acc
  = Ok (acc ++ combine post data).
Proof.
  revert pre post acc.
  induction data as [|d data IH]; intros pre post acc Hnd Hkeys Hlen; simpl.
  - destruct post; simpl; now rewrite app_nil_r.
  - destruct post as [|i post]; simpl in Hlen; [lia|].
    rewrite nth_error_app2 by lia. rewrite Nat.sub_diag. simpl.
    rewrite set_fresh.
    + replace (pre ++ i :: post) with ((pre ++ [i]) ++ post)
        by now rewrite <- app_assoc.
      replace (S (List.length pre)) with (List.length (pre ++ [i]))
        by (rewrite length_app; simpl; lia).
      rewrite IH.
      * now rewrite <- app_assoc.
      * now rewrite <- app_assoc.
      * unfold Dict.keys in *. rewrite map_app, Hkeys. reflexivity.
      * lia.
    + rewrite Hkeys. apply NoDup_remove_2 in Hnd.
      intros Hin. apply Hnd. apply in_or_app. now left.
Qed.

(** The same loop when the provider returns more vectors than there are
    clips: [clip_ids[i]] is out of range. *)
Lemma collect_embeddings_overflow (ids : list pyval) (data : list vector)
    (i : nat) (acc : Embeddings) :
  (i <= List.length ids)%nat ->
  (List.length ids < i + List.length data)%nat ->
  collect_embeddings ids data i acc
  = Raise (Exn IndexError "list index out of range").
Proof.
  revert i acc. induction data as [|d data IH]; intros i acc Hi Hlen; simpl.
  - simpl in Hlen. lia.
  - destruct (nth_error ids i) as [clip_id|] eqn:En; [|reflexivity].
    apply IH.
    + apply Nat.le_succ_l. apply nth_error_Some. congruence.
    + simpl in Hlen. lia.
Qed.

Lemma combine_keys (ids : list pyval) (data : list vector) :
  Dict.keys (combine ids data) = firstn (List.length data) ids.
Proof.
  unfold Dict.keys. revert data.
  induction ids as [|i ids IH]; intros [|d data]; simpl; try reflexivity.
  now rewrite IH.
Qed.

Lemma NoDup_firstn {A : Type} (n : nat) (l : list A) :
  NoDup l -> NoDup (firstn n l).
Proof.
  intros H. rewrite <- (firstn_skipn n l) in H.
  now apply NoDup_app_remove_r in H.
Qed.

Section GenerateFacts.
Variables (w : World) (clips : list Clip) (texts : list string)
  (ids : list pyval) (data : list vector).
Hypothesis Hlibrary : OPENAI_AVAILABLE w = true.
Hypothesis Hkey : not_api_key (OPENAI_API_KEY w) = false.
Hypothesis Hstore : clips_table w = Ok clips.
Hypothesis Hbatch : prepare_batch clips = Ok (texts, ids).
Hypothesis Hsome : texts <> [].
Hypothesis Hprovider : embeddings_create w texts = Ok data.

Lemma generate_collects :
  generate_embeddings_for_all_clips w
  = (collect_embeddings ids data 0 [], with_call texts w).
Proof.
  rewrite (generate_run w clips texts ids Hlibrary Hkey Hstore Hbatch).
  destruct texts; [congruence|]. now rewrite Hprovider.
Qed.

(** X4: when the identifiers of the clips are distinct and the provider
    answers with at most one vector per text, the generation makes one
    provider call - the projected texts of all clips, in the order of the
    store - and pairs the i-th identifier with the i-th vector; a short
    answer leaves the last clips out of the cache without any error. *)
Theorem generated_cache_pairs :
  NoDup ids ->
  (List.length data <= List.length ids)%nat ->
  texts = map get_clip_text_representation clips
  /\ generate_embeddings_for_all_clips w
     = (Ok (combine ids data), with_call texts w).
Proof.
  intros Hnd Hlen. split; [apply (prepare_batch_spec _ _ _ Hbatch)|].
  rewrite generate_collects. f_equal.
  exact (collect_embeddings_fresh [] ids data [] Hnd eq_refl Hlen).
Qed.

(** X18: when the provider answers with more vectors than there are
    clips, the generation ends in [IndexError]; [rebuild_embeddings]
    reports the failure and the cache file is not written. *)
Theorem surplus_vectors_fail_rebuild :
  (List.length ids < List.length data)%nat ->
  rebuild_embeddings w
  = (RebuildFailure "list index out of range", with_call texts w)
  /\ EMBEDDINGS_FILE (with_call texts w) = EMBEDDINGS_FILE w.
Proof.
  intros Hlen. split; [|reflexivity].
  unfold rebuild_embeddings.
  assert (Hg : generate_embeddings_for_all_clips w
               = (Raise (Exn IndexError "list index out of range"),
                  with_call texts w)).
  { rewrite generate_collects. f_equal.
    apply collect_embeddings_overflow; simpl; lia. }
  now rewrite (bind_raise _ _ _ _ _ Hg).
Qed.

(** X5: under the conditions of X4, with string identifiers and a cache
    file that can be written, [rebuild_embeddings] reports success with the
    number of vectors as its count, and [load_embeddings] then returns
    exactly the generated mapping. *)
Theorem rebuild_then_load :
  NoDup ids ->
  (List.length data <= List.length ids)%nat ->
  Forall (fun i => exists s, i = VStr s) ids ->
  EMBEDDINGS_FILE w <> Unreadable ->
  exists w',
    rebuild_embeddings w
    = (RebuildSuccess (List.length data)
         ("Successfully generated " ++ str_of_nat (List.length data)
          ++ " embeddings"), w')
    /\ load_embeddings w' = (Ok (Some (LoadedDict (combine ids data))), w').
Proof.
  intros Hnd Hlen Hstr Hfile.
  assert (Hg : generate_embeddings_for_all_clips w
               = (Ok (combine ids data), with_call texts w)).
  { rewrite generate_collects. f_equal.
    exact (collect_embeddings_fresh [] ids data [] Hnd eq_refl Hlen). }
  assert (Hs : save_embeddings (combine ids data) (with_call texts w)
               = (Ok tt, with_file (JsonText (json_dump (combine ids data)))
                           (with_call texts w))).
  { unfold save_embeddings. cbn [EMBEDDINGS_FILE with_call].
    destruct (EMBEDDINGS_FILE w); congruence. }
  exists (with_file (JsonText (json_dump (combine ids data)))
            (with_call texts w)).
  split.
  - unfold rebuild_embeddings.
    rewrite (bind_ok _ _ _ _ _ Hg), (bind_ok _ _ _ _ _ Hs). unfold ret.
    rewrite length_combine, Nat.min_r by exact Hlen. reflexivity.
  - unfold load_embeddings. cbn [EMBEDDINGS_FILE with_file].
    rewrite json_load_dump; [reflexivity| |].
    + apply Forall_forall. intros [k v] Hin.
      apply in_combine_l in Hin. rewrite Forall_forall in Hstr.
      now apply Hstr.
    + rewrite combine_keys. now apply NoDup_firstn.
Qed.

End GenerateFacts.

(** The batch of the example world: one text and one identifier. *)
Definition example_texts : list string := ["vs Duke | Result: Make"].
Definition example_ids : list pyval := [VStr "c1"].

(** X4 at the example world. *)
Lemma generated_cache_pairs_witness :
  OPENAI_AVAILABLE example_world = true
  /\ not_api_key (OPENAI_API_KEY example_world) = false
  /\ clips_table example_world = Ok [example_clip]
  /\ prepare_batch [example_clip] = Ok (example_texts, example_ids)
  /\ example_texts <> []
  /\ embeddings_create example_world example_texts = Ok [[1; 0]%float]
  /\ NoDup example_ids
  /\ (List.length [[1; 0]%float] <= List.length example_ids)%nat
  /\ example_texts = map get_clip_text_representation [example_clip]
  /\ generate_embeddings_for_all_clips example_world
     = (Ok (combine example_ids [[1; 0]%float]),
        with_call example_texts example_world).
Proof.
  assert (Hne : example_texts <> []) by discriminate.
  assert (Hnd : NoDup example_ids) by (repeat constructor; simpl; tauto).
  assert (Hlen : (List.length [[1; 0]%float] <= List.length example_ids)%nat)
    by (simpl; lia).
  do 8 (split; [first [reflexivity | assumption]|]).
  exact (generated_cache_pairs example_world [example_clip] example_texts
           example_ids [[1; 0]%float] eq_refl eq_refl eq_refl eq_refl Hne
           eq_refl Hnd Hlen).
Defined.

(** A provider that answers with two vectors, whatever it is asked. *)
Definition surplus_world : World :=
  mkWorld true (Some "sk-test") Absent (Ok [example_clip])
    (fun _ => Ok [[1; 0]%float; [0; 1]%float]) [] true.

(** X18 at that provider. *)
Lemma surplus_vectors_fail_rebuild_witness :
  OPENAI_AVAILABLE surplus_world = true
  /\ not_api_key (OPENAI_API_KEY surplus_world) = false
  /\ clips_table surplus_world = Ok [example_clip]
  /\ prepare_batch [example_clip] = Ok (example_texts, example_ids)
  /\ example_texts <> []
  /\ embeddings_create surplus_world example_texts
     = Ok [[1; 0]%float; [0; 1]%float]
  /\ (List.length example_ids
      < List.length [[1; 0]%float; [0; 1]%float])%nat
  /\ rebuild_embeddings surplus_world
     = (RebuildFailure "list index out of range",
        with_call example_texts surplus_world)
  /\ EMBEDDINGS_FILE (with_call example_texts surplus_world)
     = EMBEDDINGS_FILE surplus_world.
Proof.
  assert (Hne : example_texts <> []) by discriminate.
  assert (Hlen : (List.length example_ids
                  < List.length [[1; 0]%float; [0; 1]%float])%nat)
    by (simpl; lia).
  do 7 (split; [first [reflexivity | assumption]|]).
  exact (surplus_vectors_fail_rebuild surplus_world [example_clip]
           example_texts example_ids [[1; 0]%float; [0; 1]%float]
           eq_refl eq_refl eq_refl eq_refl Hne eq_refl Hlen).
Defined.

(** X5 at the example world. *)
Lemma rebuild_then_load_witness :
  OPENAI_AVAILABLE example_world = true
  /\ not_api_key (OPENAI_API_KEY example_world) = false
  /\ clips_table example_world = Ok [example_clip]
  /\ prepare_batch [example_clip] = Ok (example_texts, example_ids)
  /\ example_texts <> []
  /\ embeddings_create example_world example_texts = Ok [[1; 0]%float]
  /\ NoDup example_ids
  /\ (List.length [[1; 0]%float] <= List.length example_ids)%nat
  /\ Forall (fun i => exists s, i = VStr s) example_ids
  /\ EMBEDDINGS_FILE example_world <> Unreadable
  /\ exists w',
       rebuild_embeddings example_world
       = (RebuildSuccess (List.length [[1; 0]%float])
            ("Successfully generated "
             ++ str_of_nat (List.length [[1; 0]%float]) ++ " embeddings"),
          w')
       /\ load_embeddings w'
          = (Ok (Some (LoadedDict (combine example_ids [[1; 0]%float]))), w').
Proof.
  assert (Hne : example_texts <> []) by discriminate.
  assert (Hnd : NoDup example_ids) by (repeat constructor; simpl; tauto).
  assert (Hlen : (List.length [[1; 0]%float] <= List.length example_ids)%nat)
    by (simpl; lia).
  assert (Hstr : Forall (fun i => exists s, i = VStr s) example_ids)
    by (repeat constructor; eauto).
  assert (Hfile : EMBEDDINGS_FILE example_world <> Unreadable)
    by discriminate.
  do 10 (split; [first [reflexivity | assumption]|]).
  exact (rebuild_then_load example_world [example_clip] example_texts
           example_ids [[1; 0]%float] eq_refl eq_refl eq_refl eq_refl Hne
           eq_refl Hnd Hlen Hstr Hfile).
Defined.

(** ** The query path: provider calls and the cache file *)

(** Answering a query calls the provider once, with the query alone,
    whether or not a later step fails. *)
Lemma answer_from_calls (query : string) (top_k : Z) (l : loaded)
    (w : World) :
  provider_calls (snd (answer_from query top_k l w))
  = provider_calls w ++ [[query]].
Proof.
  destruct w as [available key file clips create calls server].
  unfold answer_from, bind, lift, ret, fetch_clips, client_embeddings_create,
    with_call.
  simpl.
  destruct (create [query]) as [[|qv data]|e]; simpl; try reflexivity.
  destruct (loaded_items l) as [items|e]; simpl; [|reflexivity].
  destruct (rank qv items top_k) as [top|e]; simpl; [|reflexivity].
  destruct clips as [clips|e]; simpl; [|reflexivity].
  destruct (clips_by_id_of clips) as [byid|e]; reflexivity.
Qed.

(** X2: a search over a cache file that holds a non-empty document calls
    the provider exactly once, with the query alone, and leaves the cache
    file as it is - whether the search then succeeds or raises. *)
Theorem warm_search_one_call (query : string) (top_k : Z) (w : World)
    (j : json) :
  OPENAI_AVAILABLE w = true ->
  not_api_key (OPENAI_API_KEY w) = false ->
  EMBEDDINGS_FILE w = JsonText j ->
  loaded_truthy (json_load j) = true ->
  provider_calls (snd (semantic_search query top_k w))
  = provider_calls w ++ [[query]]
  /\ EMBEDDINGS_FILE (snd (semantic_search query top_k w)) = JsonText j.
Proof.
  intros Ho Hk Hfile Htruthy.
  rewrite (semantic_search_steps query top_k w Ho Hk).
  assert (Hl : load_embeddings w = (Ok (Some (json_load j)), w)).
  { unfold load_embeddings. now rewrite Hfile. }
  rewrite (bind_ok _ _ _ _ _ Hl).
  assert (He : ensure_cache (Some (json_load j)) w = (Ok (json_load j), w)).
  { unfold ensure_cache. cbn [not_embeddings]. now rewrite Htruthy. }
  rewrite (bind_ok _ _ _ _ _ He).
  split; [apply answer_from_calls|].
  now rewrite answer_from_keeps_file.
Qed.

(** X2 at the example world. *)
Lemma warm_search_one_call_witness :
  OPENAI_AVAILABLE example_world = true
  /\ not_api_key (OPENAI_API_KEY example_world) = false
  /\ EMBEDDINGS_FILE example_world = JsonText (json_dump example_cache)
  /\ loaded_truthy (json_load (json_dump example_cache)) = true
  /\ provider_calls (snd (semantic_search "horns" 5 example_world))
     = provider_calls example_world ++ [["horns"]]
  /\ EMBEDDINGS_FILE (snd (semantic_search "horns" 5 example_world))
     = JsonText (json_dump example_cache).
Proof.
  do 4 (split; [reflexivity|]).
  exact (warm_search_one_call "horns" 5 example_world
           (json_dump example_cache) eq_refl eq_refl eq_refl eq_refl).
Defined.

(** X1: a search that finds no cache file (or one that holds [{}]), over a
    store of at least one clip whose embeddings can be generated, calls
    the provider exactly twice - first with the projected texts of all
    clips, in the order of the store, then with the query alone - and
    leaves the generated mapping in the cache file. *)
Theorem cold_search_two_calls (query : string) (top_k : Z) (w : World)
    (clips : list Clip) (generated : Embeddings) :
  EMBEDDINGS_FILE w = Absent \/ EMBEDDINGS_FILE w = JsonText (JObj []) ->
  clips_table w = Ok clips ->
  clips <> [] ->
  fst (generate_embeddings_for_all_clips w) = Ok generated ->
  provider_calls (snd (semantic_search query top_k w))
  = provider_calls w
    ++ [map get_clip_text_representation clips; [query]]
  /\ EMBEDDINGS_FILE (snd (semantic_search query top_k w))
     = JsonText (json_dump generated).
Proof.
  intros Hfile Hstore Hne Hgen.
  destruct (generate_needs_library_and_key w generated Hgen) as [Ho Hk].
  assert (Hsearch : semantic_search query top_k w
                    = rebuild_then_answer query top_k w).
  { destruct Hfile as [Hf|Hf].
    - apply semantic_search_rebuilds with None; trivial.
      unfold load_embeddings. now rewrite Hf.
    - apply semantic_search_rebuilds with (Some (LoadedDict [])); trivial.
      unfold load_embeddings. now rewrite Hf. }
  assert (Hwritable : EMBEDDINGS_FILE w <> Unreadable)
    by (destruct Hfile as [Hf|Hf]; rewrite Hf; discriminate).
  pose proof (rebuild_then_answer_file query top_k _ w Hwritable) as Hrebuild.
  rewrite with_file_same, <- Hsearch in Hrebuild.
  rewrite Hrebuild. clear Hrebuild Hsearch.
  destruct (prepare_batch clips) as [[texts ids]|e] eqn:Hbatch.
  - pose proof (generate_run w clips texts ids Ho Hk Hstore Hbatch) as Hrun.
    destruct (prepare_batch_spec _ _ _ Hbatch) as [Htexts _].
    destruct texts as [|t texts];
      [destruct clips; [congruence | discriminate]|].
    rewrite Hrun in Hgen |- *. cbn [fst] in Hgen. rewrite Hgen.
    cbv beta iota.
    rewrite answer_from_calls, answer_from_keeps_file.
    cbn [provider_calls EMBEDDINGS_FILE with_file with_call].
    rewrite <- Htexts, <- app_assoc. split; reflexivity.
  - exfalso. revert Hgen.
    destruct w as [available key file table create calls server].
    simpl in *. subst available table.
    unfold generate_embeddings_for_all_clips, bind, read, raise, fetch_clips,
      lift, ret.
    simpl. rewrite Hk. simpl. rewrite Hbatch. discriminate.
Qed.

(** X1 at the example world without its cache file. *)
Lemma cold_search_two_calls_witness :
  (EMBEDDINGS_FILE (with_file Absent example_world) = Absent
   \/ EMBEDDINGS_FILE (with_file Absent example_world) = JsonText (JObj []))
  /\ clips_table (with_file Absent example_world) = Ok [example_clip]
  /\ [example_clip] <> []
  /\ fst (generate_embeddings_for_all_clips (with_file Absent example_world))
     = Ok [(VStr "c1", [1; 0]%float)]
  /\ provider_calls
       (snd (semantic_search "horns" 5 (with_file Absent example_world)))
     = provider_calls (with_file Absent example_world)
       ++ [map get_clip_text_representation [example_clip]; ["horns"]]
  /\ EMBEDDINGS_FILE
       (snd (semantic_search "horns" 5 (with_file Absent example_world)))
     = JsonText (json_dump [(VStr "c1", [1; 0]%float)]).
Proof.
  assert (Hne : [example_clip] <> []) by discriminate.
  split; [left; reflexivity|]. split; [reflexivity|]. split; [exact Hne|].
  split; [reflexivity|].
  exact (cold_search_two_calls "horns" 5 (with_file Absent example_world)
           [example_clip] [(VStr "c1", [1; 0]%float)]
           (or_introl eq_refl) eq_refl Hne eq_refl).
Defined.

(** X14: over an empty store with no cache file, a search writes the
    empty mapping [{}] to the cache file without calling the provider for
    it, embeds the query and returns no result; as [{}] is falsy, the next
    search generates again. *)
Theorem empty_store_search (query : string) (top_k : Z) (w : World)
    (qv : vector) (rest : list vector) :
  OPENAI_AVAILABLE w = true ->
  not_api_key (OPENAI_API_KEY w) = false ->
  EMBEDDINGS_FILE w = Absent ->
  clips_table w = Ok [] ->
  embeddings_create w [query] = Ok (qv :: rest) ->
  semantic_search query top_k w
  = (Ok [], with_call [query] (with_file (JsonText (JObj [])) w))
  /\ not_embeddings (Some (json_load (JObj []))) = true.
Proof.
  intros Ho Hk Hfile Hstore Hq. split; [|reflexivity].
  rewrite (semantic_search_rebuilds query top_k w None Ho Hk);
    [|unfold load_embeddings; now rewrite Hfile|reflexivity].
  unfold rebuild_then_answer.
  rewrite (bind_ok _ _ _ _ _
             (generate_run w [] [] [] Ho Hk Hstore eq_refl)).
  assert (Hs : save_embeddings [] w
               = (Ok tt, with_file (JsonText (JObj [])) w)).
  { unfold save_embeddings. now rewrite Hfile. }
  rewrite (bind_ok _ _ _ _ _ Hs).
  rewrite (answer_from_run query top_k (LoadedDict [])
             (with_file (JsonText (JObj [])) w) qv rest [] [] [] []);
    trivial.
  unfold rank. simpl. unfold slice_to.
  destruct (0 <=? top_k)%Z; now rewrite firstn_nil.
Qed.

(** A world whose store is empty and whose cache file is missing. *)
Definition empty_store_world : World :=
  mkWorld true (Some "sk-test") Absent (Ok [])
    (fun texts => Ok (map (fun _ => [1; 0]%float) texts)) [] true.

(** X14 at that world. *)
Lemma empty_store_search_witness :
  OPENAI_AVAILABLE empty_store_world = true
  /\ not_api_key (OPENAI_API_KEY empty_store_world) = false
  /\ EMBEDDINGS_FILE empty_store_world = Absent
  /\ clips_table empty_store_world = Ok []
  /\ embeddings_create empty_store_world ["horns"] = Ok ([1; 0]%float :: [])
  /\ semantic_search "horns" 5 empty_store_world
     = (Ok [], with_call ["horns"]
                 (with_file (JsonText (JObj [])) empty_store_world))
  /\ not_embeddings (Some (json_load (JObj []))) = true.
Proof.
  do 5 (split; [reflexivity|]).
  exact (empty_store_search "horns" 5 empty_store_world [1; 0]%float []
           eq_refl eq_refl eq_refl eq_refl eq_refl).
Defined.

(** ** The order of the results *)

Lemma firstn_In {A : Type} (n : nat) (l : list A) (x : A) :
  In x (firstn n l) -> In x l.
Proof.
  revert l. induction n as [|n IH]; intros [|a l]; simpl; try tauto.
  intros [->|H]; [now left | right; now apply IH].
Qed.

Lemma StronglySorted_firstn {A : Type} (R : A -> A -> Prop) (n : nat)
    (l : list A) :
  StronglySorted R l -> StronglySorted R (firstn n l).
Proof.
  intros H. revert n. induction H as [|a l Hl IH Ha]; intros [|n]; simpl;
    try constructor.
  - apply IH.
  - rewrite Forall_forall in Ha |- *. intros x Hx.
    apply Ha. eapply firstn_In; exact Hx.
Qed.

Lemma join_results_scores (top : list (pyval * float))
    (byid : Dict.t pyval Clip) (r : RankedClip) :
  In r (join_results top byid) ->
  exists i, In (i, similarity_score r) top.
Proof.
  induction top as [|[i s] top IH]; simpl; [tauto|].
  destruct (Dict.lookup i byid) as [clip|].
  - intros [<-|Hin]; [exists i; now left|].
    destruct (IH Hin) as [i' Hi']. exists i'. now right.
  - intros Hin. destruct (IH Hin) as [i' Hi']. exists i'. now right.
Qed.

Lemma join_results_descending (top : list (pyval * float))
    (byid : Dict.t pyval Clip) :
  descending snd top -> descending similarity_score (join_results top byid).
Proof.
  induction 1 as [|[i s] top Hs IH Hall]; simpl; [constructor|].
  destruct (Dict.lookup i byid) as [clip|]; [|exact IH].
  constructor; [exact IH|].
  apply Forall_forall. intros r Hr.
  destruct (join_results_scores _ _ _ Hr) as [i' Hi'].
  rewrite Forall_forall in Hall. exact (Hall _ Hi').
Qed.

Lemma join_results_length (top : list (pyval * float))
    (byid : Dict.t pyval Clip) :
  (List.length (join_results top byid) <= List.length top)%nat.
Proof.
  induction top as [|[i s] top IH]; simpl; [lia|].
  destruct (Dict.lookup i byid); simpl; lia.
Qed.

(** X13: when the cached vectors give scores that are all numbers, the
    results of a search over a loaded cache come best first - the scores
    never increase along the list - and there are at most
    [min(top_k, |cache|)] of them, for a non-negative [top_k]. *)
Theorem search_results_ordered (query : string) (top_k : Z) (w : World)
    (j : json) (cache : Embeddings) (qv : vector) (rest : list vector)
    (sims : list (pyval * float)) (clips : list Clip)
    (pairs : list (pyval * Clip)) :
  OPENAI_AVAILABLE w = true ->
  not_api_key (OPENAI_API_KEY w) = false ->
  EMBEDDINGS_FILE w = JsonText j ->
  json_load j = LoadedDict cache ->
  cache <> [] ->
  embeddings_create w [query] = Ok (qv :: rest) ->
  calculate_similarities qv cache = Ok sims ->
  no_nan_keys snd sims ->
  clips_table w = Ok clips ->
  id_pairs clips = Ok pairs ->
  (0 <= top_k)%Z ->
  exists results,
    fst (semantic_search query top_k w) = Ok results
    /\ descending similarity_score results
    /\ (List.length results
        <= Nat.min (Z.to_nat top_k) (List.length cache))%nat.
Proof.
  intros Ho Hk Hfile Hload Hne Hq Hsims Hnan Hclips Hpairs Htop.
  set (top := firstn (Z.to_nat top_k) (fold_right (sift snd) [] sims)).
  assert (Hrank : rank qv cache top_k = Ok top).
  { unfold rank, Dict.items. rewrite Hsims. simpl.
    now rewrite slice_to_firstn, list_sort_reverse_fold. }
  exists (join_results top (Dict.of_pairs pairs)). split; [|split].
  - rewrite (semantic_search_steps query top_k w Ho Hk).
    assert (Hl : load_embeddings w = (Ok (Some (LoadedDict cache)), w)).
    { unfold load_embeddings. now rewrite Hfile, Hload. }
    rewrite (bind_ok _ _ _ _ _ Hl).
    assert (He : ensure_cache (Some (LoadedDict cache)) w
                 = (Ok (LoadedDict cache), w)).
    { unfold ensure_cache. destruct cache; [congruence | reflexivity]. }
    rewrite (bind_ok _ _ _ _ _ He).
    rewrite (answer_from_run query top_k (LoadedDict cache) w qv rest
               (Dict.items cache) top clips (Dict.of_pairs pairs));
      trivial.
    unfold clips_by_id_of. now rewrite Hpairs.
  - apply join_results_descending. unfold top.
    apply StronglySorted_firstn. now apply sort_descending.
  - pose proof (join_results_length top (Dict.of_pairs pairs)) as Hlen.
    assert (Htoplen : List.length top
                      = Nat.min (Z.to_nat top_k) (List.length cache)).
    { unfold top. rewrite length_firstn.
      rewrite (Permutation_length (sort_perm snd sims)).
      now rewrite <- (Forall2_length (calculate_similarities_spec _ _ _ Hsims)). }
    lia.
Qed.

(** X13 at the example world. *)
Lemma search_results_ordered_witness :
  OPENAI_AVAILABLE example_world = true
  /\ not_api_key (OPENAI_API_KEY example_world) = false
  /\ EMBEDDINGS_FILE example_world = JsonText (json_dump example_cache)
  /\ json_load (json_dump example_cache) = LoadedDict example_cache
  /\ example_cache <> []
  /\ embeddings_create example_world ["horns"] = Ok ([1; 0]%float :: [])
  /\ calculate_similarities [1; 0]%float example_cache
     = Ok [(VStr "c1", 1%float); (VStr "gone", (3 / 5)%float)]
  /\ no_nan_keys snd [(VStr "c1", 1%float); (VStr "gone", (3 / 5)%float)]
  /\ clips_table example_world = Ok [example_clip]
  /\ id_pairs [example_clip] = Ok [(VStr "c1", example_clip)]
  /\ (0 <= 5)%Z
  /\ exists results,
       fst (semantic_search "horns" 5 example_world) = Ok results
       /\ descending similarity_score results
       /\ (List.length results
           <= Nat.min (Z.to_nat 5) (List.length example_cache))%nat.
Proof.
  assert (Hne : example_cache <> []) by discriminate.
  assert (Hnan : no_nan_keys snd
                   [(VStr "c1", 1%float); (VStr "gone", (3 / 5)%float)])
    by (repeat constructor).
  assert (Htop : (0 <= 5)%Z) by lia.
  do 11 (split; [first [reflexivity | assumption]|]).
  exact (search_results_ordered "horns" 5 example_world
           (json_dump example_cache) example_cache [1; 0]%float []
           [(VStr "c1", 1%float); (VStr "gone", (3 / 5)%float)]
           [example_clip] [(VStr "c1", example_clip)]
           eq_refl eq_refl eq_refl eq_refl Hne eq_refl eq_refl Hnan
           eq_refl eq_refl Htop).
Defined.

(** ** The endpoints *)

Lemma lstrip_chars_nil (l : list ascii) :
  lstrip_chars l = [] -> forallb isspace l = true.
Proof.
  induction l as [|c l IH]; simpl; [reflexivity|].
  destruct (isspace c); simpl; [exact IH | discriminate].
Qed.

Lemma lstrip_chars_kept_blank (l : list ascii) :
  forallb isspace (lstrip_chars l) = true -> forallb isspace l = true.
Proof.
  induction l as [|c l IH]; simpl; [reflexivity|].
  destruct (isspace c) eqn:Ec; simpl.
  - exact IH.
  - now rewrite Ec.
Qed.

Lemma forallb_rev {A : Type} (f : A -> bool) (l : list A) :
  forallb f (rev l) = true -> forallb f l = true.
Proof.
  rewrite !forallb_forall. intros H x Hx. apply H. now apply in_rev in Hx.
Qed.

(** Only a blank string is stripped to the empty string. *)
Lemma strip_empty_blank (s : string) : strip s = "" -> blank s = true.
Proof.
  unfold strip, blank. intros H.
  assert (Hnil : rev (lstrip_chars (rev (lstrip_chars (list_ascii_of_string s))))
                 = []).
  { destruct (rev (lstrip_chars (rev (lstrip_chars (list_ascii_of_string s)))));
      [reflexivity | discriminate]. }
  apply (f_equal (@rev ascii)) in Hnil. rewrite rev_involutive in Hnil.
  simpl in Hnil.
  now apply lstrip_chars_kept_blank, forallb_rev, lstrip_chars_nil.
Qed.

Lemma strip_not_blank (s : string) :
  blank s = false -> (strip s =? "") = false.
Proof.
  intros H. apply String.eqb_neq. intros E.
  apply strip_empty_blank in E. congruence.
Qed.

Section EndpointFacts.
Context {T : Type} (transform_db_clip : RankedClip -> result T).
Variables (request : Request) (w : World).

(** The query and the limit that the endpoint passes on. *)
Definition request_query : string :=
  strip (match req_query request with Some q => q | None => "" end).
Definition request_top_k : Z :=
  match req_top_k request with Some k => k | None => 20%Z end.

Hypothesis Hserver : SEMANTIC_SEARCH_AVAILABLE w = true.
Hypothesis Hlibrary : OPENAI_AVAILABLE w = true.
Hypothesis Hquery :
  blank (match req_query request with Some q => q | None => "" end) = false.

Lemma endpoint_runs_search :
  api_semantic_search transform_db_clip request w
  = match (results <- semantic_search request_query request_top_k ;;
           transformed <- lift (transform_all transform_db_clip results) ;;
           ret (OkResponse request_query (List.length transformed)
                  transformed)) w with
    | (Ok response, w') => (response, w')
    | (Raise e, w') =>
        if is_ValueError e
        then (ErrorResponse 400 (exn_str e) (Some false), w')
        else (ErrorResponse 500 (exn_str e) None, w')
    end.
Proof.
  unfold api_semantic_search. rewrite Hserver, Hlibrary. simpl negb.
  cbv iota. now rewrite (strip_not_blank _ Hquery).
Qed.


(** X3: with the key set, a cache file that is not JSON makes the
    endpoint answer 400 - [JSONDecodeError] is a [ValueError], which the
    endpoint reports as a bad request - while a cache file that cannot be
    opened gives 500; in both cases nothing is changed. *)
Theorem endpoint_broken_cache :
  not_api_key (OPENAI_API_KEY w) = false ->
  (EMBEDDINGS_FILE w = Garbage ->
   exists error,
     api_semantic_search transform_db_clip request w
     = (ErrorResponse 400 error (Some false), w))
  /\ (EMBEDDINGS_FILE w = Unreadable ->
      exists error,
        api_semantic_search transform_db_clip request w
        = (ErrorResponse 500 error None, w)).
Proof.
  intros Hkey. rewrite endpoint_runs_search.
  split; intros Hfile.
  - assert (Hs : semantic_search request_query request_top_k w
                 = (Raise (Exn JSONDecodeError "Expecting value"), w)).
    { rewrite (semantic_search_steps _ _ w Hlibrary Hkey).
      apply bind_raise. unfold load_embeddings. now rewrite Hfile. }
    rewrite (bind_raise _ _ _ _ _ Hs). simpl. eauto.
  - assert (Hs : semantic_search request_query request_top_k w
                 = (Raise (Exn PermissionError "Permission denied"), w)).
    { rewrite (semantic_search_steps _ _ w Hlibrary Hkey).
      apply bind_raise. unfold load_embeddings. now rewrite Hfile. }
    rewrite (bind_raise _ _ _ _ _ Hs). simpl. eauto.
Qed.

End EndpointFacts.

(** A request whose query has blanks around it and which gives no
    [top_k]. *)
Definition example_request : Request := mkRequest (Some "  horns ") None.


(** X3 at the example world with a cache file that is not JSON. *)
Lemma endpoint_broken_cache_witness :
  SEMANTIC_SEARCH_AVAILABLE (with_file Garbage example_world) = true
  /\ OPENAI_AVAILABLE (with_file Garbage example_world) = true
  /\ blank "  horns " = false
  /\ not_api_key (OPENAI_API_KEY (with_file Garbage example_world)) = false
  /\ (EMBEDDINGS_FILE (with_file Garbage example_world) = Garbage ->
      exists error,
        api_semantic_search (fun r => Ok r) example_request
          (with_file Garbage example_world)
        = (ErrorResponse 400 error (Some false),
           with_file Garbage example_world))
  /\ (EMBEDDINGS_FILE (with_file Garbage example_world) = Unreadable ->
      exists error,
        api_semantic_search (fun r => Ok r) example_request
          (with_file Garbage example_world)
        = (ErrorResponse 500 error None, with_file Garbage example_world)).
Proof.
  do 4 (split; [reflexivity|]).
  exact (endpoint_broken_cache (fun r => Ok r) example_request
           (with_file Garbage example_world) eq_refl eq_refl eq_refl eq_refl).
Defined.

(** X16: a search that the endpoint answers with a success implies that
    [api_search_status] reports all three of its flags as true: the module
    was imported, the library is there and the key is set. *)
Theorem successful_search_status {T : Type}
    (transform_db_clip : RankedClip -> result T) (request : Request)
    (w : World) (query : string) (count : nat) (results : list T) :
  fst (api_semantic_search transform_db_clip request w)
  = OkResponse query count results ->
  api_search_status w = mkStatus true true true.
Proof.
  unfold api_semantic_search, api_search_status.
  destruct (SEMANTIC_SEARCH_AVAILABLE w); simpl; [|discriminate].
  destruct (OPENAI_AVAILABLE w) eqn:Ho; simpl; [|discriminate].
  destruct (strip _ =? ""); [discriminate|].
  destruct (not_api_key (OPENAI_API_KEY w)) eqn:Hk; [|reflexivity].
  rewrite (bind_raise _ _ _ _ _ (semantic_search_no_key _ _ w Ho Hk)).
  simpl. discriminate.
Qed.

(** X16 at the example world. *)
Lemma successful_search_status_witness :
  fst (api_semantic_search (fun r => Ok r) example_request example_world)
  = OkResponse "horns" 1 [mkRanked example_clip 1%float]
  /\ api_search_status example_world = mkStatus true true true.
Proof.
  split; [reflexivity|].
  exact (successful_search_status (fun r => Ok r) example_request
           example_world "horns" 1 [mkRanked example_clip 1%float] eq_refl).
Defined.

(** X17: [api_rebuild_embeddings] answers 501, and does nothing, when the
    search module is missing.  It answers 200 only after the generation has
    returned a mapping and the cache file has been replaced by the whole of
    it, the count of the answer being its size.  It answers 500 with
    [str(e)] of the exception raised either by the generation, and then the
    cache file is what it was before, or by the save that followed a
    successful generation; of the file left behind by a save that raised,
    nothing is stated. *)
Theorem rebuild_endpoint_outcome (w : World) :
  match api_rebuild_embeddings w with
  | ((status, body), w') =>
      (status = 501%Z
       /\ body = RebuildUnavailable
       /\ SEMANTIC_SEARCH_AVAILABLE w = false
       /\ w' = w)
      \/ (status = 200%Z
          /\ SEMANTIC_SEARCH_AVAILABLE w = true
          /\ exists generated message,
               fst (generate_embeddings_for_all_clips w) = Ok generated
               /\ body = RebuildResult true
                           (RebuildSuccess (List.length generated) message)
               /\ EMBEDDINGS_FILE w' = JsonText (json_dump generated))
      \/ (status = 500%Z
          /\ SEMANTIC_SEARCH_AVAILABLE w = true
          /\ exists e,
               body = RebuildResult false (RebuildFailure (exn_str e))
               /\ (fst (generate_embeddings_for_all_clips w) = Raise e
                   /\ EMBEDDINGS_FILE w' = EMBEDDINGS_FILE w
                   \/ exists generated,
                        fst (generate_embeddings_for_all_clips w)
                        = Ok generated
                        /\ fst (save_embeddings generated
                                  (snd (generate_embeddings_for_all_clips w)))
                           = Raise e))
  end.
Proof.
  unfold api_rebuild_embeddings.
  destruct (SEMANTIC_SEARCH_AVAILABLE w); cbn [negb];
    [|left; repeat split; reflexivity].
  unfold rebuild_embeddings, bind.
  pose proof (generate_keeps_file w) as Hkeep.
  destruct (generate_embeddings_for_all_clips w) as [[g|e] wg];
    cbn [fst snd] in *.
  - destruct (save_embeddings g wg) as [[u|e] ws] eqn:Hsave; unfold ret.
    + right. left. split; [reflexivity|]. split; [reflexivity|].
      eexists g, _. split; [reflexivity|]. split; [reflexivity|].
      unfold save_embeddings in Hsave.
      destruct (EMBEDDINGS_FILE wg); inversion Hsave; reflexivity.
    + right. right. split; [reflexivity|]. split; [reflexivity|].
      exists e. split; [reflexivity|]. right. exists g.
      now rewrite Hsave.
  - right. right. split; [reflexivity|]. split; [reflexivity|].
    exists e. split; [reflexivity|]. left. now split.
Qed.

(** ** Access control of the two endpoints *)

(** X15: the two routes as the server wires them.  When [auth] could not
    be imported, or when the server does not run in the cloud, every
    request is served, whatever its token.  With [auth] imported and in
    cloud mode, a request without a valid token is answered 401 by both
    routes; a guest may search but is answered 403 by the rebuild route;
    any other role passes both.  A rejected request changes nothing: no
    rebuild runs, the provider is not called and the cache file is not
    touched. *)
Theorem cloud_access_control {T : Type}
    (transform_db_clip : RankedClip -> result T) (request : Request)
    (AUTH_AVAILABLE : bool) (s : Session) (w : World) :
  (AUTH_AVAILABLE = false \/ is_cloud s = false ->
   media_server.route_search_semantic AUTH_AVAILABLE transform_db_clip
     request s w
   = run_endpoint (api_semantic_search transform_db_clip request) w
   /\ media_server.route_search_rebuild_embeddings AUTH_AVAILABLE s w
      = run_endpoint api_rebuild_embeddings w)
  /\ (AUTH_AVAILABLE = true ->
      is_cloud s = true ->
      (not_user (user_from_token s) = true ->
       media_server.route_search_semantic AUTH_AVAILABLE transform_db_clip
         request s w
       = (Rejected 401 "Authentication required", w)
       /\ media_server.route_search_rebuild_embeddings AUTH_AVAILABLE s w
          = (Rejected 401 "Authentication required", w))
      /\ (not_user (user_from_token s) = false ->
          is_guest (user_from_token s) = true ->
          media_server.route_search_semantic AUTH_AVAILABLE transform_db_clip
            request s w
          = run_endpoint (api_semantic_search transform_db_clip request) w
          /\ media_server.route_search_rebuild_embeddings AUTH_AVAILABLE s w
             = (Rejected 403 "Write access not allowed for guest users", w))
      /\ (not_user (user_from_token s) = false ->
          is_guest (user_from_token s) = false ->
          media_server.route_search_semantic AUTH_AVAILABLE transform_db_clip
            request s w
          = run_endpoint (api_semantic_search transform_db_clip request) w
          /\ media_server.route_search_rebuild_embeddings AUTH_AVAILABLE s w
             = run_endpoint api_rebuild_embeddings w)).
Proof.
  unfold media_server.route_search_semantic,
    media_server.route_search_rebuild_embeddings,
    media_server.require_auth, media_server.require_write,
    require_auth, require_write.
  split.
  - intros [-> | Hlocal]; [split; reflexivity|].
    rewrite Hlocal. destruct AUTH_AVAILABLE; split; reflexivity.
  - intros -> Hcloud. rewrite Hcloud. cbn [negb].
    split; [|split]; intros Hu; try intros Hg; rewrite Hu; try rewrite Hg;
      split; reflexivity.
Qed.

(** A guest in cloud mode. *)
Definition guest_session : Session :=
  mkSession true (Some [("username", VStr "scout"); ("role", VStr "guest")]).

(** X15 at the guest: rejected by the rebuild route of a server that
    imported [auth], served by that of a server that could not. *)
Lemma cloud_access_control_witness :
  is_cloud guest_session = true
  /\ not_user (user_from_token guest_session) = false
  /\ is_guest (user_from_token guest_session) = true
  /\ (media_server.route_search_semantic true (fun r => Ok r) example_request
        guest_session example_world
      = run_endpoint (api_semantic_search (fun r => Ok r) example_request)
          example_world
      /\ media_server.route_search_rebuild_embeddings true guest_session
           example_world
         = (Rejected 403 "Write access not allowed for guest users",
            example_world))
  /\ (media_server.route_search_semantic false (fun r => Ok r)
        example_request guest_session example_world
      = run_endpoint (api_semantic_search (fun r => Ok r) example_request)
          example_world
      /\ media_server.route_search_rebuild_embeddings false guest_session
           example_world
         = run_endpoint api_rebuild_embeddings example_world).
Proof.
  do 3 (split; [reflexivity|]).
  split.
  - exact (proj1 (proj2 (proj2 (cloud_access_control (fun r => Ok r)
                                  example_request true guest_session
                                  example_world)
                           eq_refl eq_refl))
             eq_refl eq_refl).
  - exact (proj1 (cloud_access_control (fun r => Ok r) example_request false
                    guest_session example_world)
             (or_introl eq_refl)).
Defined.

(** X7 at a cache that holds a vector of three components. *)
Lemma rank_needs_equal_shapes_witness :
  Exists (fun kv => List.length [1; 0]%float <> List.length (snd kv))
    [(VStr "a", [1; 0]%float); (VStr "b", [1; 0; 0]%float)]
  /\ exists e,
       rank [1; 0]%float
         [(VStr "a", [1; 0]%float); (VStr "b", [1; 0; 0]%float)] 5
       = Raise e
       /\ exn_class e = ValueError.
Proof.
  assert (H : Exists
                (fun kv => List.length [1; 0]%float <> List.length (snd kv))
                [(VStr "a", [1; 0]%float); (VStr "b", [1; 0; 0]%float)]).
  { apply Exists_cons_tl, Exists_cons_hd. simpl. lia. }
  split; [exact H|].
  exact (proj2 (rank_needs_equal_shapes [1; 0]%float
                  [(VStr "a", [1; 0]%float); (VStr "b", [1; 0; 0]%float)] 5)
           H).
Defined.
